(** * qbt_migrate: batch rewriting of save paths in qBittorrent .fastresume files

    A shallow embedding of [qbt_migrate/classes.py] (the classes
    [FastResume] and [QBTBatchMove]) together with the properties of its
    setters, of record construction, of discovery and of the batch run.

    Layout: Python strings and the builtins the code uses on them; bencoded
    values and the dictionary operations; exceptions, log records and the
    trace of external effects; the operating-system view the code reads;
    [FastResume]; [QBTBatchMove]; then the theorems. *)

From Stdlib Require Import String Ascii List ZArith Lia Bool.
Import ListNotations.
Local Open Scope string_scope.
Local Open Scope list_scope.

(** String concatenation, kept apart from list concatenation. *)
Infix "+++" := String.append (at level 60, right associativity).

(* ================================================================== *)
(** ** Python [str] builtins used by the code *)
(* ================================================================== *)

Module PyStr.

(** [s.startswith(p)]. *)
Fixpoint startswith (s p : string) {struct p} : bool :=
  match p, s with
  | EmptyString, _ => true
  | String _ _, EmptyString => false
  | String a p', String b s' => Ascii.eqb a b && startswith s' p'
  end.

(** [s.endswith(suf)]: [s] is [suf], or the rest of [s] ends with [suf]. *)
Fixpoint endswith (s suf : string) : bool :=
  String.eqb s suf ||
  match s with
  | EmptyString => false
  | String _ s' => endswith s' suf
  end.

(** [needle in s] for two strings: [needle] starts at some position of [s]. *)
Fixpoint contains (s needle : string) : bool :=
  startswith s needle ||
  match s with
  | EmptyString => false
  | String _ s' => contains s' needle
  end.

(** [s.replace("", new)]: [new] goes before every character and at the end. *)
Fixpoint interleave (new s : string) : string :=
  match s with
  | EmptyString => new
  | String c s' => new +++ String c (interleave new s')
  end.

(** The scan of [s.replace(old, new)] for a non-empty [old], left to right:
    [skip] counts the characters of a match that are still to be passed
    over; outside a match, an occurrence of [old] at the current position is
    replaced and the scan goes on behind it. *)
Fixpoint replace_scan (old new : string) (skip : nat) (s : string) : string :=
  match s with
  | EmptyString => EmptyString
  | String c s' =>
      match skip with
      | S k => replace_scan old new k s'
      | O =>
          if startswith s old
          then new +++ replace_scan old new (String.length old - 1) s'
          else String c (replace_scan old new 0 s')
      end
  end.

(** [s.replace(old, new)], no count given: every occurrence is replaced. *)
Definition replace (s old new : string) : string :=
  match old with
  | EmptyString => interleave new s
  | String _ _ => replace_scan old new 0 s
  end.

(** [s.replace(old, new, 1)]: the first occurrence only. *)
Fixpoint replace_first (s old new : string) : string :=
  if startswith s old
  then new +++ String.substring (String.length old)
                                (String.length s - String.length old) s
  else match s with
       | EmptyString => EmptyString
       | String c s' => String c (replace_first s' old new)
       end.

(** The one-character strings a [for] loop over a string goes through. *)
Fixpoint chars (s : string) : list string :=
  match s with
  | EmptyString => []
  | String c s' => String c EmptyString :: chars s'
  end.

End PyStr.

(* ================================================================== *)
(** ** Bencoded values and Python's operators on them *)
(* ================================================================== *)

(** Python exceptions the code raises, catches or lets through. *)
Inductive exn : Type :=
| BencodeDecodeError (msg : string)
| FileNotFoundError (path : string)
| NotADirectoryError (path : string)
| ValueError (msg : string)
| KeyError (msg : string)
| TypeError (msg : string)
| AttributeError (msg : string)
| OSError (msg : string).

Local Set Warnings "-register-all".

(** What [bencode.bread] hands back: text strings (byte strings that decode
    as UTF-8), byte strings that do not, integers, lists, and dictionaries
    that keep the order of their keys. *)
Inductive value : Type :=
| VStr (s : string)
| VBytes (b : list ascii)
| VInt (z : Z)
| VList (l : list value)
| VDict (d : list (string * value)).

(** An ordered dictionary as the list of its items. *)
Definition dict := list (string * value).

Fixpoint dict_get (k : string) (d : dict) : option value :=
  match d with
  | [] => None
  | (k', v) :: d' => if String.eqb k k' then Some v else dict_get k d'
  end.

(** [d[k] = v]: an existing key keeps its place, a new key goes last. *)
Fixpoint dict_set (k : string) (v : value) (d : dict) : dict :=
  match d with
  | [] => [(k, v)]
  | (k', v') :: d' =>
      if String.eqb k k' then (k', v) :: d' else (k', v') :: dict_set k v d'
  end.

Definition is_str (v : value) (s : string) : bool :=
  match v with
  | VStr s' => String.eqb s' s
  | _ => false
  end.

(** [k in v] for a string [k]. *)
Definition py_contains (k : string) (v : value) : exn + bool :=
  match v with
  | VStr s => inr (PyStr.contains s k)
  | VBytes _ => inl (TypeError "a bytes-like object is required, not 'str'")
  | VInt _ => inl (TypeError "argument of type 'int' is not iterable")
  | VList l => inr (existsb (fun x => is_str x k) l)
  | VDict d => inr (match dict_get k d with Some _ => true | None => false end)
  end.

(** [v[k]] for a string [k]. *)
Definition py_getitem (v : value) (k : string) : exn + value :=
  match v with
  | VDict d =>
      match dict_get k d with
      | Some x => inr x
      | None => inl (KeyError k)
      end
  | VStr _ => inl (TypeError "string indices must be integers")
  | VBytes _ => inl (TypeError "byte indices must be integers")
  | VInt _ => inl (TypeError "'int' object is not subscriptable")
  | VList _ => inl (TypeError "list indices must be integers or slices")
  end.

(** [v[k] = x] for a string [k]. *)
Definition py_setitem (v : value) (k : string) (x : value) : exn + value :=
  match v with
  | VDict d => inr (VDict (dict_set k x d))
  | VStr _ => inl (TypeError "'str' object does not support item assignment")
  | VBytes _ => inl (TypeError "'bytes' object does not support item assignment")
  | VInt _ => inl (TypeError "'int' object does not support item assignment")
  | VList _ => inl (TypeError "list indices must be integers or slices")
  end.

(** The items a [for] loop over [v] goes through. *)
Definition py_iter (v : value) : exn + list value :=
  match v with
  | VList l => inr l
  | VStr s => inr (map VStr (PyStr.chars s))
  | VBytes b => inr (map (fun c => VInt (Z.of_N (N_of_ascii c))) b)
  | VDict d => inr (map (fun kv => VStr (fst kv)) d)
  | VInt _ => inl (TypeError "'int' object is not iterable")
  end.

(** [v.replace(old, new)] for strings [old] and [new]. *)
Definition py_replace (v : value) (old new : string) : exn + string :=
  match v with
  | VStr s => inr (PyStr.replace s old new)
  | VBytes _ => inl (TypeError "a bytes-like object is required, not 'str'")
  | _ => inl (AttributeError "replace")
  end.

(* ================================================================== *)
(** ** Log records, external effects, and the operating system *)
(* ================================================================== *)

Inductive level : Type := DEBUG | INFO | WARNING | CRITICAL.

(** The line feed. *)
Definition nl : string := String (ascii_of_nat 10) EmptyString.

(** A formatted message: its literal parts and the values put between. *)
Inductive frag : Type :=
| Lit (s : string)
| Fmt (v : value)
| FmtOpt (o : option string)
| FmtExn (e : exn).

(** A [FastResume] object: its two attributes. *)
Record FastResume : Type := mkFastResume {
  _file_path : string;
  _data : value
}.

(** What a call does that is seen outside of it, in the order it happens. *)
Inductive event : Type :=
| Log (lvl : level) (msg : list frag)
    (* a call to the logger *)
| BWrite (file_name : string) (data : value)
    (* bencode.bwrite(data, file_name) *)
| SetItem (key : string) (v : value)
    (* self._data[key] = v *)
| ZipOpen (archive_path : string)
    (* zipfile.ZipFile(archive_path, 'w') *)
| ZipWrite (path : string)
    (* archive.write(path) *)
| ZipClose
    (* leaving the with block *)
| Yield (fr : FastResume)
    (* the generator hands a record to its consumer *)
| ThreadStart (fr : FastResume) (existing_path new_path : string)
              (target_os : option string) (save_file create_backup : bool).
    (* Thread(target=fr.replace_paths, args=[...]).start() *)

Definition is_log (e : event) : bool :=
  match e with Log _ _ => true | _ => false end.

(** The events of a trace other than log records. *)
Definition effects (t : list event) : list event :=
  filter (fun e => negb (is_log e)) t.

(** The records a trace yields, in order. *)
Fixpoint yielded (t : list event) : list FastResume :=
  match t with
  | [] => []
  | Yield fr :: t' => fr :: yielded t'
  | _ :: t' => yielded t'
  end.

(** What a path leads to: a directory with its listing in the order
    [os.listdir] returns it, or a regular file with what [bencode.bread]
    does on it (the decoded value, or the exception it raises). *)
Inductive node : Type :=
| Dir (listing : list string)
| File (bread : exn + value).

(** The operating system as the code sees it. *)
Record os_env : Type := mkOs {
  path_join : string -> string -> string;   (* os.path.join *)
  dirname : string -> string;               (* os.path.dirname *)
  realpath : string -> string;              (* os.path.realpath *)
  stat : string -> option node;             (* None: nothing at this path *)
  write_error : string -> option exn        (* the exception, if any, that
                                               creating and writing the file
                                               at this path raises *)
}.

Definition exists_ (os : os_env) (p : string) : bool :=
  match stat os p with Some _ => true | None => false end.

Definition isfile (os : os_env) (p : string) : bool :=
  match stat os p with Some (File _) => true | _ => false end.

Definition isdir (os : os_env) (p : string) : bool :=
  match stat os p with Some (Dir _) => true | _ => false end.

Definition listdir (os : os_env) (p : string) : exn + list string :=
  match stat os p with
  | Some (Dir l) => inr l
  | Some (File _) => inl (NotADirectoryError p)
  | None => inl (FileNotFoundError p)
  end.

(** [bencode.bread(p)] on an existing regular file. *)
Definition bread_at (os : os_env) (p : string) : exn + value :=
  match stat os p with
  | Some (File r) => r
  | Some (Dir _) => inl (OSError "Is a directory")
  | None => inl (FileNotFoundError p)
  end.

(** Sequencing of computations that may raise. *)
Definition rbind {A B : Type} (r : exn + A) (k : A -> exn + B) : exn + B :=
  match r with
  | inl e => inl e
  | inr a => k a
  end.

Notation "x <~ c ;; k" := (rbind c (fun x => k))
  (at level 61, c at next level, right associativity).

(** A comprehension [[f(x) for x in l]]: left to right, up to the first
    exception. *)
Fixpoint map_m {A B : Type} (f : A -> exn + B) (l : list A) : exn + list B :=
  match l with
  | [] => inr []
  | x :: l' => y <~ f x ;; ys <~ map_m f l' ;; inr (y :: ys)
  end.

(* ================================================================== *)
(** ** class FastResume *)
(* ================================================================== *)

Module FastResume.

(** A method: from the object as it is to the events of the call, its
    result or the exception it raises, and the object as the call leaves
    it. *)
Definition M (A : Type) : Type :=
  FastResume -> list event * (exn + A) * FastResume.

Definition ret {A : Type} (a : A) : M A :=
  fun self => ([], inr a, self).

Definition raise {A : Type} (e : exn) : M A :=
  fun self => ([], inl e, self).

Definition lift {A : Type} (r : exn + A) : M A :=
  fun self => ([], r, self).

Definition bind {A B : Type} (m : M A) (k : A -> M B) : M B :=
  fun self =>
    match m self with
    | (t, inl e, self') => (t, inl e, self')
    | (t, inr a, self') =>
        match k a self' with
        | (t', r, self'') => (t ++ t', r, self'')
        end
    end.

Notation "x <- c ;; k" := (bind c (fun x => k))
  (at level 61, c at next level, right associativity).
Notation "c ;;; k" := (bind c (fun _ => k))
  (at level 61, right associativity).

Definition emit (e : event) : M unit :=
  fun self => ([e], inr tt, self).

Definition when (b : bool) (m : M unit) : M unit :=
  if b then m else ret tt.

Definition get_data : M value :=
  fun self => ([], inr (_data self), self).

Definition put_data (d : value) : M unit :=
  fun self => ([], inr tt, mkFastResume (_file_path self) d).

(** [self._data[key] = v]. *)
Definition set_item (key : string) (v : value) : M unit :=
  d <- get_data ;;
  d' <- lift (py_setitem d key v) ;;
  put_data d' ;;;
  emit (SetItem key v).

Section Methods.

(** [convert_slashes] of [qbt_migrate/methods.py], called with a path and
    the target operating system. *)
Variable convert_slashes : value -> string -> exn + value.

Variable os : os_env.

(** [FastResume(file_path)]. *)
Definition init (file_path : string) : list event * (exn + FastResume) :=
  let fp := realpath os file_path in
  if negb (exists_ os fp) || negb (isfile os fp) then
    ([], inl (FileNotFoundError fp))
  else
    let t1 := [Log DEBUG [Lit "Loading Fast Resume: "; Fmt (VStr fp)]] in
    match bread_at os fp with
    | inl e => (t1, inl e)
    | inr data =>
        match (b1 <~ py_contains "save_path" data ;;
               if negb b1 then inr true
               else b2 <~ py_contains "qBt-savePath" data ;; inr (negb b2)) with
        | inl e => (t1, inl e)
        | inr true =>
            (t1, inl (ValueError
               "Missing required keys for a qBittorrent .fastresume file"))
        | inr false =>
            (t1 ++ [Log DEBUG [Lit "Fast Resume ("; Fmt (VStr fp);
                               Lit ") Init Complete."]],
             inr (mkFastResume fp data))
        end
    end.

Definition file_path : M string :=
  fun self => ([], inr (_file_path self), self).

(** The property reads the clock; [stamp] is what
    [datetime.now().strftime('%Y%m%d%H%M%S')] returns at that moment. *)
Definition backup_filename (stamp : string) : M string :=
  fp <- file_path ;;
  ret (fp +++ "." +++ stamp +++ "." +++ "bkup").

Definition save_path : M value :=
  d <- get_data ;; lift (py_getitem d "save_path").

Definition qbt_save_path : M value :=
  d <- get_data ;; lift (py_getitem d "qBt-savePath").

Definition mapped_files : M (option value) :=
  d <- get_data ;;
  b <- lift (py_contains "mapped_files" d) ;;
  if b then v <- lift (py_getitem d "mapped_files") ;; ret (Some v)
  else ret None.

(** [bencode.bwrite(self._data, file_name)]. A call that returns is the
    event [BWrite]. A call that raises leaves no event: the trace holds the
    writes that were completed, and tells nothing of what a write that
    failed has left of the file (the real call opens the file for writing,
    which empties it, before it writes). *)
Definition bwrite (file_name : string) : M unit :=
  d <- get_data ;;
  match write_error os file_name with
  | Some e => raise e
  | None => emit (BWrite file_name d)
  end.

Definition save (file_name : option string) : M unit :=
  fp <- file_path ;;
  let file_name := match file_name with None => fp | Some f => f end in
  emit (Log INFO [Lit "Saving File "; Fmt (VStr file_name); Lit "..."]) ;;;
  bwrite file_name.

Definition valid_key (key : string) : bool :=
  String.eqb key "save_path" || String.eqb key "qBt-savePath".

(** [stamp] is the time stamp the call reads if it makes a backup. *)
Definition set_save_path (path : value) (key : string)
    (target_os : option string) (save_file create_backup : bool)
    (stamp : string) : M unit :=
  if negb (valid_key key) then
    raise (KeyError
      ("When setting a save path, key must be `save_path` or `qBt-savePath`. "
       +++ "Received " +++ key))
  else
    when create_backup (bf <- backup_filename stamp ;; save (Some bf)) ;;;
    path <- match target_os with
            | Some t => lift (convert_slashes path t)
            | None => ret path
            end ;;
    d <- get_data ;;
    old <- lift (py_getitem d key) ;;
    emit (Log DEBUG [Lit "Setting "; Fmt (VStr key); Lit "... Old: "; Fmt old;
                     Lit ", New: "; Fmt path; Lit ", Target OS: ";
                     FmtOpt target_os]) ;;;
    set_item key path ;;;
    when save_file (save None).

Definition set_save_paths (path : value) (target_os : option string)
    (save_file create_backup : bool) (stamp : string) : M unit :=
  when create_backup (bf <- backup_filename stamp ;; save (Some bf)) ;;;
  set_save_path path "save_path" target_os false false stamp ;;;
  set_save_path path "qBt-savePath" target_os false false stamp ;;;
  mf <- mapped_files ;;
  match mf, target_os with
  | Some _, Some t =>
      emit (Log DEBUG [Lit "Converting Slashes for mapped_files..."]) ;;;
      mf' <- mapped_files ;;
      items <- lift (match mf' with
                     | Some v => py_iter v
                     | None => inl (TypeError "'NoneType' object is not iterable")
                     end) ;;
      l <- lift (map_m (fun p => convert_slashes p t) items) ;;
      set_item "mapped_files" (VList l)
  | _, _ => ret tt
  end ;;;
  when save_file (save None).

Definition replace_paths (existing_path new_path : string)
    (target_os : option string) (save_file create_backup : bool)
    (stamp : string) : M unit :=
  fp <- file_path ;;
  emit (Log INFO [Lit "Replacing Paths in FastResume "; Fmt (VStr fp);
                  Lit "..."]) ;;;
  sp <- save_path ;;
  new_save_path <- lift (py_replace sp existing_path new_path) ;;
  emit (Log DEBUG [Lit "Existing Save Path: "; Fmt (VStr existing_path);
                   Lit ", New Save Path: "; Fmt (VStr new_path);
                   Lit ", Replaced Save Path: "; Fmt (VStr new_save_path)]) ;;;
  set_save_paths (VStr new_save_path) target_os save_file create_backup stamp ;;;
  emit (Log INFO [Lit "FastResume ("; Fmt (VStr fp); Lit ") Paths Replaced!"]).

End Methods.

End FastResume.

(* ================================================================== *)
(** ** class QBTBatchMove *)
(* ================================================================== *)

(** A [QBTBatchMove] object. *)
Record QBTBatchMove : Type := mkQBTBatchMove {
  bt_backup_path : string
}.

Module QBTBatchMove.

(** The exceptions the [except] clause of discovery names. *)
Definition caught (e : exn) : bool :=
  match e with
  | BencodeDecodeError _ | FileNotFoundError _ | ValueError _ => true
  | _ => false
  end.

(** [existing_path in fast_resume.save_path or
     existing_path in fast_resume.qbt_save_path]. *)
Definition relevant (existing_path : string) (fr : FastResume) : exn + bool :=
  sp <~ py_getitem (_data fr) "save_path" ;;
  b <~ py_contains existing_path sp ;;
  if b then inr true
  else
    qsp <~ py_getitem (_data fr) "qBt-savePath" ;;
    py_contains existing_path qsp.

Section Methods.

Variable os : os_env.

(** The loop of [discover_relevant_fast_resume] over the listing: the
    events up to the end of the iteration and the exception that ends it,
    if one does. *)
Fixpoint discover_loop (bt_backup_path existing_path : string)
    (raise_on_error : bool) (files : list string) : list event * option exn :=
  match files with
  | [] => ([], None)
  | file :: rest =>
      let continue :=
        discover_loop bt_backup_path existing_path raise_on_error rest in
      if PyStr.endswith file ".fastresume" then
        match FastResume.init os (path_join os bt_backup_path file) with
        | (t, inl e) =>
            if caught e then
              if raise_on_error then
                (t ++ [Log CRITICAL [Lit "Unable to parse "; Fmt (VStr file);
                                     Lit ". Stopping Discovery!"]],
                 Some e)
              else
                (t ++ Log WARNING [Lit "Unable to parse "; Fmt (VStr file);
                                   Lit ". Skipping!"; Lit nl; Lit nl;
                                   FmtExn e]
                   :: fst continue,
                 snd continue)
            else (t, Some e)
        | (t, inr fast_resume) =>
            match relevant existing_path fast_resume with
            | inl e => (t, Some e)
            | inr true => (t ++ Yield fast_resume :: fst continue, snd continue)
            | inr false => (t ++ fst continue, snd continue)
            end
        end
      else continue
  end.

Definition discover_relevant_fast_resume (bt_backup_path existing_path : string)
    (raise_on_error : bool) : list event * option exn :=
  match listdir os bt_backup_path with
  | inl e => ([], Some e)
  | inr files =>
      discover_loop bt_backup_path existing_path raise_on_error files
  end.

(** The loop of [backup_folder] inside the [with] block. *)
Fixpoint archive_loop (folder_path : string) (files : list string)
    : list event * option exn :=
  match files with
  | [] => ([ZipClose; Log INFO [Lit "Done!"]], None)
  | file :: rest =>
      let p := path_join os folder_path file in
      if exists_ os p then
        let r := archive_loop folder_path rest in
        (ZipWrite p :: fst r, snd r)
      else ([ZipClose], Some (FileNotFoundError p))
  end.

Definition backup_folder (folder_path archive_path : string)
    : list event * option exn :=
  let t0 := [Log INFO [Lit "Creating Archive "; Fmt (VStr archive_path);
                       Lit " ..."]] in
  match write_error os archive_path with
  | Some e => (t0, Some e)
  | None =>
      match listdir os folder_path with
      | inl e => (t0 ++ [ZipOpen archive_path; ZipClose], Some e)
      | inr files =>
          let r := archive_loop folder_path files in
          (t0 ++ ZipOpen archive_path :: fst r, snd r)
      end
  end.

(** The body of the [for] loop of [run], run on each record as discovery
    yields it. *)
Definition dispatch (existing_path new_path : string)
    (target_os : option string) (e : event) : list event :=
  match e with
  | Yield fast_resume =>
      [ThreadStart fast_resume existing_path new_path target_os true false]
  | _ => [e]
  end.

(** [stamp] is the time stamp the call reads if it makes the archive. *)
Definition run (self : QBTBatchMove) (existing_path new_path : string)
    (target_os : option string) (create_backup skip_bad_files : bool)
    (stamp : string) : list event * option exn :=
  let dir := bt_backup_path self in
  if negb (exists_ os dir) || negb (isdir os dir) then
    ([], Some (NotADirectoryError dir))
  else
    let b :=
      if create_backup then
        backup_folder dir
          (path_join os (dirname os dir)
                     ("fastresume_backup" +++ stamp +++ ".zip"))
      else ([], None) in
    match snd b with
    | Some e => (fst b, Some e)
    | None =>
        let d := discover_relevant_fast_resume dir existing_path
                   (negb skip_bad_files) in
        (fst b
           ++ Log INFO [Lit "Searching for .fastresume files with path ";
                        Fmt (VStr existing_path); Lit " ..."]
           :: flat_map (dispatch existing_path new_path target_os) (fst d),
         snd d)
    end.

(** [update_fastresume(fast_resume, ...)]: the call runs on the record
    [fast_resume]. *)
Definition update_fastresume
    (convert_slashes : value -> string -> exn + value)
    (existing_path new_path : string) (target_os : option string)
    (save_file create_backup : bool) (stamp : string) : FastResume.M unit :=
  FastResume.replace_paths convert_slashes os existing_path new_path target_os
    save_file create_backup stamp.

End Methods.

End QBTBatchMove.

(* ================================================================== *)
(** ** Vocabulary of the properties *)
(* ================================================================== *)

(** The occurrence of [old] behind [a] is the leftmost one of
    [a +++ old +++ b]. *)
Definition leftmost (old a b : string) : Prop :=
  forall a' b', a +++ old +++ b = a' +++ old +++ b' ->
                String.length a <= String.length a'.

(** [r] is [s] with every occurrence of [old] replaced by [new], the
    occurrences taken from the left and not overlapping. *)
Inductive replaced_all (old new : string) : string -> string -> Prop :=
| ra_none (s : string) :
    (forall a b, s <> a +++ old +++ b) -> replaced_all old new s s
| ra_occ (a b r : string) :
    leftmost old a b -> replaced_all old new b r ->
    replaced_all old new (a +++ old +++ b) (a +++ new +++ r).

(** [needle] occurs in [s]. *)
Definition occurs (needle s : string) : Prop :=
  exists a b, s = a +++ needle +++ b.

(** The path a setter stores: translated when a target is given. *)
Definition translated (convert_slashes : value -> string -> exn + value)
    (target_os : option string) (path : value) : exn + value :=
  match target_os with
  | Some t => convert_slashes path t
  | None => inr path
  end.

(** The name [backup_filename] derives at time stamp [stamp]. *)
Definition backup_name (self : FastResume) (stamp : string) : string :=
  _file_path self +++ "." +++ stamp +++ "." +++ "bkup".

(** The log records of the setters. *)
Definition set_log (key : string) (old p : value) (target_os : option string)
    : event :=
  Log DEBUG [Lit "Setting "; Fmt (VStr key); Lit "... Old: "; Fmt old;
             Lit ", New: "; Fmt p; Lit ", Target OS: "; FmtOpt target_os].

Definition save_log (f : string) : event :=
  Log INFO [Lit "Saving File "; Fmt (VStr f); Lit "..."].

Definition mapped_log : event :=
  Log DEBUG [Lit "Converting Slashes for mapped_files..."].

(** The step of [set_save_paths] on the mapped files, when it succeeds:
    its events and the dictionary it leaves. *)
Inductive mapped_step (convert_slashes : value -> string -> exn + value)
    (target_os : option string) (d : dict) : list event -> dict -> Prop :=
| ms_keep :
    target_os = None \/ dict_get "mapped_files" d = None ->
    mapped_step convert_slashes target_os d [] d
| ms_rewrite (t : string) (mf : value) (items l : list value) :
    target_os = Some t ->
    dict_get "mapped_files" d = Some mf ->
    py_iter mf = inr items ->
    map_m (fun p => convert_slashes p t) items = inr l ->
    mapped_step convert_slashes target_os d
      [mapped_log; SetItem "mapped_files" (VList l)]
      (dict_set "mapped_files" (VList l) d).

Definition backup_part (create_backup : bool) (bk : string) (d : value)
    : list event :=
  if create_backup then [save_log bk; BWrite bk d] else [].

Definition persist_part (save_file : bool) (fp : string) (d : value)
    : list event :=
  if save_file then [save_log fp; BWrite fp d] else [].

(** A call leaves file paths alone and writes, if at all, to the file of
    the record. *)
Definition persist_only {A : Type} (m : FastResume.M A) : Prop :=
  forall self t r self',
    m self = (t, r, self') ->
    _file_path self' = _file_path self /\
    forall f d, In (BWrite f d) t -> f = _file_path self.

(** The outcome of a call on [self] that was asked for a backup at [bk]:
    whatever is written to [bk] is the state [self] had when the call
    began, and a call that returns has written it before any other effect. *)
Definition backs_up_prior_state (self : FastResume) (bk : string)
    (out : list event * (exn + unit) * FastResume) : Prop :=
  (forall d, In (BWrite bk d) (fst (fst out)) -> d = _data self) /\
  (snd (fst out) = inr tt ->
   exists logs rest,
     fst (fst out) = logs ++ BWrite bk (_data self) :: rest /\
     forallb is_log logs = true).

(** What [replace_paths] does around the call it delegates to. *)
Definition delegated (self : FastResume) (existing_path new_path p : string)
    (out : list event * (exn + unit) * FastResume)
    : list event * (exn + unit) * FastResume :=
  let fp := _file_path self in
  (Log INFO [Lit "Replacing Paths in FastResume "; Fmt (VStr fp); Lit "..."]
   :: Log DEBUG [Lit "Existing Save Path: "; Fmt (VStr existing_path);
                 Lit ", New Save Path: "; Fmt (VStr new_path);
                 Lit ", Replaced Save Path: "; Fmt (VStr p)]
   :: fst (fst out)
   ++ match snd (fst out) with
      | inr _ => [Log INFO [Lit "FastResume ("; Fmt (VStr fp);
                            Lit ") Paths Replaced!"]]
      | inl _ => []
      end,
   snd (fst out), snd out).

(** Modelled from the spec: the Path Translator (section 4.3), whose code
    ([convert_slashes] in qbt_migrate/methods.py) is not among the sources:
    separators follow the convention of the target. Used for the examples
    only. *)
Definition convert_slashes_model (path : value) (target_os : string)
    : exn + value :=
  match path with
  | VStr s =>
      if String.eqb target_os "Windows" then inr (VStr (PyStr.replace s "/" "\"))
      else if String.eqb target_os "Linux" || String.eqb target_os "Mac"
      then inr (VStr (PyStr.replace s "\" "/"))
      else inl (ValueError "Target OS is not valid")
  | _ => inl (AttributeError "replace")
  end.

(** A record of a multi-file torrent, for the examples. *)
Definition movies_dict : dict :=
  [("save_path", VStr "/mnt/old/data/movies");
   ("qBt-savePath", VStr "/mnt/old/data/movies");
   ("mapped_files", VList [VStr "a/b.mkv"; VStr "c.srt"]);
   ("total_uploaded", VInt 42)].

Definition movies_data : value := VDict movies_dict.

Definition movies : FastResume :=
  mkFastResume "/bt/movies.fastresume" movies_data.

(** A directory for the examples: two good records, one without the client
    save path, one that does not decode, and a file of another kind. *)
Definition demo_listing : list string :=
  ["movies.fastresume"; "notes.txt"; "nokey.fastresume"; "music.fastresume";
   "broken.fastresume"].

Definition demo_stat (p : string) : option node :=
  if String.eqb p "/bt" then Some (Dir demo_listing)
  else if String.eqb p "/bt/movies.fastresume" then
    Some (File (inr movies_data))
  else if String.eqb p "/bt/notes.txt" then
    Some (File (inl (BencodeDecodeError "not a valid bencoded string")))
  else if String.eqb p "/bt/nokey.fastresume" then
    Some (File (inr (VDict [("save_path", VStr "/mnt/old/x")])))
  else if String.eqb p "/bt/music.fastresume" then
    Some (File (inr (VDict [("save_path", VStr "/srv/music");
                            ("qBt-savePath", VStr "/srv/music")])))
  else if String.eqb p "/bt/broken.fastresume" then
    Some (File (inl (BencodeDecodeError "not a valid bencoded string")))
  else None.

Definition demo_os : os_env :=
  mkOs (fun a b => if PyStr.endswith a "/" then a +++ b else a +++ "/" +++ b)
       (fun _ => "/")
       (fun p => p)
       demo_stat
       (fun _ => None).

(** The same directory on a system that cannot create the archive. *)
Definition readonly_os : os_env :=
  mkOs (path_join demo_os) (dirname demo_os) (realpath demo_os) demo_stat
       (fun p => Some (OSError "Read-only file system")).

(** A record whose save path repeats a directory name, for the examples. *)
Definition nested : FastResume :=
  mkFastResume "/bt/nested.fastresume"
    (VDict [("save_path", VStr "/data/data/x");
            ("qBt-savePath", VStr "/data/data/x")]).

(** The substitution policy [replace_paths] would have if it replaced the
    first occurrence only. *)
Definition replaces_first_only : Prop :=
  forall convert_slashes os existing_path new_path target_os save_file
         create_backup stamp self sp,
    py_getitem (_data self) "save_path" = inr (VStr sp) ->
    FastResume.replace_paths convert_slashes os existing_path new_path
      target_os save_file create_backup stamp self
    = delegated self existing_path new_path
        (PyStr.replace_first sp existing_path new_path)
        (FastResume.set_save_paths convert_slashes os
           (VStr (PyStr.replace_first sp existing_path new_path))
           target_os save_file create_backup stamp self).

(** The calls of the examples. *)
Definition movies_set : list event * (exn + unit) * FastResume :=
  FastResume.set_save_paths convert_slashes_model demo_os
    (VStr "/mnt/new/data/movies") (Some "Windows") true true "20240101120000"
    movies.

Definition movies_replaced : list event * (exn + unit) * FastResume :=
  FastResume.replace_paths convert_slashes_model demo_os "/mnt/old" "/mnt/new"
    (Some "Windows") true true "20240101120000" movies.

(** The exception of a record that lacks a required key. *)
Definition missing_keys : exn :=
  ValueError "Missing required keys for a qBittorrent .fastresume file".

(** The files of a directory as the specification sorts them: valid, with
    the record and its two save paths, both strings; malformed, with the
    failure of the construction (no regular file at the path, an encoding
    that does not decode, a required key that is absent); anything else. *)
Inductive file_class : Type :=
| Valid (fr : FastResume) (sp qsp : string)
| Malformed (e : exn)
| Unclassified.

Definition classify (os : os_env) (file_path : string) : file_class :=
  let fp := realpath os file_path in
  match stat os fp with
  | None | Some (Dir _) => Malformed (FileNotFoundError fp)
  | Some (File (inl (BencodeDecodeError msg))) =>
      Malformed (BencodeDecodeError msg)
  | Some (File (inr (VDict d))) =>
      match dict_get "save_path" d, dict_get "qBt-savePath" d with
      | Some (VStr sp), Some (VStr qsp) =>
          Valid (mkFastResume fp (VDict d)) sp qsp
      | None, _ | _, None => Malformed missing_keys
      | _, _ => Unclassified
      end
  | _ => Unclassified
  end.

Definition is_malformed (c : file_class) : bool :=
  match c with Malformed _ => true | _ => false end.

(** The record of a valid file when [existing_path] occurs in one of its
    save paths. *)
Definition matching (existing_path : string) (c : file_class)
    : list FastResume :=
  match c with
  | Valid fr sp qsp =>
      if PyStr.contains sp existing_path || PyStr.contains qsp existing_path
      then [fr] else []
  | _ => []
  end.

(** The entries of a listing with the suffix of resume files. *)
Definition resume_files (files : list string) : list string :=
  filter (fun file => PyStr.endswith file ".fastresume") files.

(** The valid matching records of a listing, in its order. *)
Definition valid_matching (os : os_env) (dir existing_path : string)
    (files : list string) : list FastResume :=
  flat_map (fun file => matching existing_path
                          (classify os (path_join os dir file)))
           (resume_files files).

(** The malformed resume files of a listing, in its order. *)
Definition malformed_files (os : os_env) (dir : string) (files : list string)
    : list string :=
  filter (fun file => is_malformed (classify os (path_join os dir file)))
         (resume_files files).

(** Every resume file of the listing is valid or malformed. *)
Definition all_classified (os : os_env) (dir : string) (files : list string)
    : Prop :=
  forall file, In file (resume_files files) ->
               classify os (path_join os dir file) <> Unclassified.

(** The files a trace reports as skipped, in order. *)
Fixpoint skipped (t : list event) : list string :=
  match t with
  | [] => []
  | Log WARNING (Lit _ :: Fmt (VStr file) :: _) :: t' => file :: skipped t'
  | _ :: t' => skipped t'
  end.

Definition is_debug (e : event) : bool :=
  match e with Log DEBUG _ => true | _ => false end.

(** The events of making the archive: log records and the calls on it. *)
Definition is_archive_event (e : event) : bool :=
  match e with
  | Log _ _ | ZipOpen _ | ZipWrite _ | ZipClose => true
  | _ => false
  end.

(** The name of the archive [run] makes at time stamp [stamp]. *)
Definition archive_name (os : os_env) (self : QBTBatchMove) (stamp : string)
    : string :=
  path_join os (dirname os (bt_backup_path self))
            ("fastresume_backup" +++ stamp +++ ".zip").

(* ================================================================== *)
(** ** Vocabulary of the further properties *)
(* ================================================================== *)

(** The log records of [backup_folder] and of [run]. *)
Definition archive_log (archive_path : string) : event :=
  Log INFO [Lit "Creating Archive "; Fmt (VStr archive_path); Lit " ..."].

Definition done_log : event := Log INFO [Lit "Done!"].

Definition search_log (existing_path : string) : event :=
  Log INFO [Lit "Searching for .fastresume files with path ";
            Fmt (VStr existing_path); Lit " ..."].

Definition load_log (fp : string) : event :=
  Log DEBUG [Lit "Loading Fast Resume: "; Fmt (VStr fp)].

(** The calls [archive.write] of [backup_folder] on a listing. *)
Definition zip_writes (os : os_env) (folder_path : string)
    (files : list string) : list event :=
  map (fun file => ZipWrite (path_join os folder_path file)) files.

Definition is_thread_start (e : event) : bool :=
  match e with ThreadStart _ _ _ _ _ _ => true | _ => false end.

(** The threads a trace starts, in order. *)
Definition started (t : list event) : list event := filter is_thread_start t.

(** The thread [run] starts on a record. *)
Definition batch_thread (existing_path new_path : string)
    (target_os : option string) (fr : FastResume) : event :=
  ThreadStart fr existing_path new_path target_os true false.

(** The events of discovery: log records and yields. *)
Definition is_discovery_event (e : event) : bool :=
  match e with Log _ _ | Yield _ => true | _ => false end.

(** The events of [run]: log records, the calls on the archive, and the
    start of threads. *)
Definition is_run_event (e : event) : bool :=
  match e with
  | Log _ _ | ZipOpen _ | ZipWrite _ | ZipClose | ThreadStart _ _ _ _ _ _ =>
      true
  | _ => false
  end.

(** The record is a dictionary that has both save paths. *)
Definition has_paths (self : FastResume) : Prop :=
  exists d a b,
    _data self = VDict d /\
    dict_get "save_path" d = Some a /\
    dict_get "qBt-savePath" d = Some b.

(** A call keeps a property of the record, however it ends. *)
Definition preserves {A : Type} (P : FastResume -> Prop) (m : FastResume.M A)
    : Prop :=
  forall self t r self', m self = (t, r, self') -> P self -> P self'.

(** A call leaves the file path alone and writes no file. *)
Definition writes_nothing {A : Type} (m : FastResume.M A) : Prop :=
  forall self t r self',
    m self = (t, r, self') ->
    _file_path self' = _file_path self /\
    forall f d, ~ In (BWrite f d) t.

(** A call leaves the file path alone, and a write it has completed was
    asked for ([save_file]), went to the record's file, and holds the
    record as the call leaves it. *)
Definition persists_last {A : Type} (save_file : bool) (m : FastResume.M A)
    : Prop :=
  forall self t r self',
    m self = (t, r, self') ->
    _file_path self' = _file_path self /\
    forall f d, In (BWrite f d) t ->
                f = _file_path self /\ save_file = true /\ d = _data self'.

(** The writes a setter has completed: to the backup when one was asked
    for, holding the record as it was when the call began; to the record's
    file when persistence was asked for, holding the record as the call
    leaves it. *)
Definition writes_as_asked (self : FastResume) (stamp : string)
    (save_file create_backup : bool)
    (out : list event * (exn + unit) * FastResume) : Prop :=
  forall f d,
    In (BWrite f d) (fst (fst out)) ->
    (f = backup_name self stamp /\ create_backup = true /\ d = _data self) \/
    (f = _file_path self /\ save_file = true /\ d = _data (snd out)).

(** A directory for the examples in which a resume file holds an integer
    and another has an integer as its save path. *)
Definition odd_stat (p : string) : option node :=
  if String.eqb p "/odd" then
    Some (Dir ["movies.fastresume"; "int.fastresume"; "music.fastresume"])
  else if String.eqb p "/odd/movies.fastresume" then
    Some (File (inr movies_data))
  else if String.eqb p "/odd/int.fastresume" then
    Some (File (inr (VInt 5)))
  else if String.eqb p "/odd/music.fastresume" then
    Some (File (inr (VDict [("save_path", VStr "/srv/music");
                            ("qBt-savePath", VStr "/srv/music")])))
  else if String.eqb p "/num" then
    Some (Dir ["num.fastresume"; "music.fastresume"])
  else if String.eqb p "/num/num.fastresume" then
    Some (File (inr (VDict [("save_path", VInt 7);
                            ("qBt-savePath", VStr "/srv/music")])))
  else if String.eqb p "/num/music.fastresume" then
    Some (File (inr (VDict [("save_path", VStr "/srv/music");
                            ("qBt-savePath", VStr "/srv/music")])))
  else None.

Definition odd_os : os_env :=
  mkOs (path_join demo_os) (dirname demo_os) (realpath demo_os) odd_stat
       (fun _ => None).

(** A directory for the examples whose listing names an entry that is not
    there. *)
Definition dangling_stat (p : string) : option node :=
  if String.eqb p "/dl" then
    Some (Dir ["movies.fastresume"; "gone.fastresume"; "music.fastresume"])
  else if String.eqb p "/dl/movies.fastresume" then
    Some (File (inr movies_data))
  else if String.eqb p "/dl/music.fastresume" then
    Some (File (inr (VDict [("save_path", VStr "/srv/music");
                            ("qBt-savePath", VStr "/srv/music")])))
  else None.

Definition dangling_os : os_env :=
  mkOs (path_join demo_os) (dirname demo_os) (realpath demo_os) dangling_stat
       (fun _ => None).

(** A record that matches [/mnt/old] by its client save path alone, and one
    whose mapped files hold an entry that is no string, for the examples. *)
Definition moved : FastResume :=
  mkFastResume "/bt/moved.fastresume"
    (VDict [("save_path", VStr "/srv/a"); ("qBt-savePath", VStr "/mnt/old/a")]).

Definition mixed : FastResume :=
  mkFastResume "/bt/mixed.fastresume"
    (VDict [("save_path", VStr "/mnt/old/m");
            ("qBt-savePath", VStr "/mnt/old/m");
            ("mapped_files", VList [VStr "a/b"; VInt 3])]).

(* ================================================================== *)
(** ** Vocabulary of fault isolation in discovery *)
(* ================================================================== *)









(* ================================================================== *)
(** ** The string builtins on examples *)
(* ================================================================== *)

Example endswith_ex :
  PyStr.endswith "ab12.fastresume" ".fastresume" = true /\
  PyStr.endswith "ab12.torrent" ".fastresume" = false /\
  PyStr.endswith "resume" ".fastresume" = false.
Proof. repeat split; reflexivity. Qed.

Example contains_ex :
  PyStr.contains "/mnt/old/data" "/old" = true /\
  PyStr.contains "/mnt/old/data" "" = true /\
  PyStr.contains "/mnt/old/data" "new" = false.
Proof. repeat split; reflexivity. Qed.

Example replace_ex :
  PyStr.replace "/mnt/old/data/movies" "/mnt/old" "/mnt/new" = "/mnt/new/data/movies" /\
  PyStr.replace "aaa" "aa" "b" = "ba" /\
  PyStr.replace "abc" "" "-" = "-a-b-c-" /\
  PyStr.replace "/a/a" "/a" "/b" = "/b/b" /\
  PyStr.replace_first "/a/a" "/a" "/b" = "/b/a".
Proof. repeat split; reflexivity. Qed.

(* ================================================================== *)
(** ** Facts about strings *)
(* ================================================================== *)

Section StringFacts.

Lemma append_nil_r (s : string) : s +++ "" = s.
Proof. induction s as [|c s IH]; simpl; [reflexivity | now rewrite IH]. Qed.

Lemma append_assoc (a b c : string) : (a +++ b) +++ c = a +++ b +++ c.
Proof. induction a as [|x a IH]; simpl; [reflexivity | now rewrite IH]. Qed.

Lemma length_append (a b : string) :
  String.length (a +++ b) = String.length a + String.length b.
Proof. induction a as [|x a IH]; simpl; [reflexivity | now rewrite IH]. Qed.

Lemma append_inv_head (a b c : string) : a +++ b = a +++ c -> b = c.
Proof.
  induction a as [|x a IH]; simpl; intros H; [assumption|].
  injection H as H. now apply IH.
Qed.

(** [startswith] finds exactly the prefixes. *)
Lemma startswith_spec (s p : string) :
  PyStr.startswith s p = true <-> exists b, s = p +++ b.
Proof.
  revert s. induction p as [|a p IH]; intros s; simpl.
  - split; [intros _; now exists s | reflexivity].
  - destruct s as [|b s].
    + split; [discriminate | intros [r Hr]; discriminate].
    + rewrite andb_true_iff, Ascii.eqb_eq, IH. split.
      * intros [-> [r ->]]. now exists r.
      * intros [r Hr]. injection Hr as -> ->. split; [reflexivity | now exists r].
Qed.

Lemma startswith_refl_app (p b : string) : PyStr.startswith (p +++ b) p = true.
Proof. apply startswith_spec. now exists b. Qed.

(** [endswith] finds exactly the suffixes. *)
Lemma endswith_spec (s suf : string) :
  PyStr.endswith s suf = true <-> exists a, s = a +++ suf.
Proof.
  induction s as [|c s IH]; cbn [PyStr.endswith].
  - rewrite orb_false_r, String.eqb_eq. split.
    + intros <-. now exists "".
    + intros [a Ha]. destruct a; [assumption | discriminate].
  - rewrite orb_true_iff, String.eqb_eq, IH. split.
    + intros [<- | [a ->]]; [now exists "" | now exists (String c a)].
    + intros [a Ha]. destruct a as [|x a]; simpl in Ha.
      * now left.
      * injection Ha as _ ->. right. now exists a.
Qed.

(** [contains] finds exactly the substrings. *)
Lemma contains_spec (s needle : string) :
  PyStr.contains s needle = true <-> exists a b, s = a +++ needle +++ b.
Proof.
  induction s as [|c s IH]; cbn [PyStr.contains].
  - rewrite orb_false_r, startswith_spec. split.
    + intros [b Hb]. now exists "", b.
    + intros [a [b H]]. destruct a; [now exists b | discriminate].
  - rewrite orb_true_iff, startswith_spec, IH. split.
    + intros [[b Hb] | [a [b ->]]]; [now exists "", b | now exists (String c a), b].
    + intros [a [b H]]. destruct a as [|x a]; simpl in H.
      * left. now exists b.
      * injection H as _ ->. right. now exists a, b.
Qed.

Lemma contains_false (s needle : string) :
  PyStr.contains s needle = false <-> forall a b, s <> a +++ needle +++ b.
Proof.
  rewrite <- not_true_iff_false, contains_spec. split.
  - intros H a b E. apply H. now exists a, b.
  - intros H [a [b E]]. now apply (H a b).
Qed.

End StringFacts.

(* ================================================================== *)
(** ** [str.replace] replaces every occurrence *)
(* ================================================================== *)


Section ReplaceFacts.

Variables old new : string.

Lemma replace_scan_skip (x b : string) :
  PyStr.replace_scan old new (String.length x) (x +++ b)
  = PyStr.replace_scan old new 0 b.
Proof.
  induction x as [|c x IH]; simpl; [|exact IH].
  destruct b; reflexivity.
Qed.

Lemma replace_scan_match (b : string) :
  old <> "" ->
  PyStr.replace_scan old new 0 (old +++ b)
  = new +++ PyStr.replace_scan old new 0 b.
Proof.
  intros Hne. destruct old as [|c o] eqn:E; [congruence|].
  rewrite <- E. assert (Hs : PyStr.startswith (old +++ b) old = true)
    by apply startswith_refl_app.
  rewrite E in *. simpl (String c o +++ b) in *. 
  cbn [PyStr.replace_scan]. rewrite Hs. f_equal.
  replace (String.length (String c o) - 1) with (String.length o)
    by (simpl; lia).
  rewrite <- E. apply replace_scan_skip.
Qed.

Lemma replace_scan_none (s : string) :
  old <> "" -> PyStr.contains s old = false ->
  PyStr.replace_scan old new 0 s = s.
Proof.
  intros Hne. induction s as [|c s IH]; simpl; [reflexivity|].
  intros H. apply orb_false_iff in H as [H1 H2].
  simpl in H1. rewrite H1. f_equal. now apply IH.
Qed.

Lemma leftmost_tail (c : ascii) (a b : string) :
  leftmost old (String c a) b -> leftmost old a b.
Proof.
  intros H a' b' E. specialize (H (String c a') b'). simpl in H.
  rewrite E in H. specialize (H eq_refl). lia.
Qed.

Lemma replace_scan_leftmost (a b : string) :
  old <> "" -> leftmost old a b ->
  PyStr.replace_scan old new 0 (a +++ old +++ b)
  = a +++ new +++ PyStr.replace_scan old new 0 b.
Proof.
  intros Hne. induction a as [|c a IH]; intros Hl.
  - simpl. now apply replace_scan_match.
  - simpl (String c a +++ _).
    assert (Hs : PyStr.startswith (String c (a +++ old +++ b)) old = false).
    { apply not_true_iff_false. intros Hs. apply startswith_spec in Hs as [r Hr].
      specialize (Hl "" r). simpl in Hl. specialize (Hl Hr). lia. }
    cbn [PyStr.replace_scan]. rewrite Hs. simpl. f_equal.
    apply IH. eapply leftmost_tail; eassumption.
Qed.

(** A string that contains [old] splits at its leftmost occurrence. *)
Lemma contains_leftmost (s : string) :
  PyStr.contains s old = true ->
  exists a b, s = a +++ old +++ b /\ leftmost old a b.
Proof.
  induction s as [|c s IH]; simpl; intros H.
  - rewrite orb_false_r in H. apply startswith_spec in H as [b Hb].
    exists "", b. split; [assumption|]. intros a' b' _. simpl. lia.
  - destruct (PyStr.startswith (String c s) old) eqn:Hs.
    + apply startswith_spec in Hs as [b Hb].
      exists "", b. split; [assumption|]. intros a' b' _. simpl. lia.
    + simpl in H. destruct (IH H) as [a [b [-> Hl]]].
      exists (String c a), b. split; [reflexivity|].
      intros a' b' E. destruct a' as [|x a'].
      * simpl in E. assert (PyStr.startswith (String c (a +++ old +++ b)) old = true).
        { apply startswith_spec. exists b'. exact E. }
        congruence.
      * simpl in E. injection E as _ E. specialize (Hl a' b' E). simpl. lia.
Qed.

(** The scan computes the replacement of every occurrence. *)
Lemma replace_scan_all (n : nat) (s : string) :
  old <> "" -> String.length s <= n ->
  replaced_all old new s (PyStr.replace_scan old new 0 s).
Proof.
  intros Hne. revert s. induction n as [|n IH]; intros s Hn.
  - destruct s; [|simpl in Hn; lia]. simpl. apply ra_none.
    intros a b E. destruct a; [|discriminate]. destruct old; [congruence|discriminate].
  - destruct (PyStr.contains s old) eqn:Hc.
    + destruct (contains_leftmost s Hc) as [a [b [-> Hl]]].
      rewrite replace_scan_leftmost by assumption.
      apply ra_occ; [assumption|]. apply IH.
      rewrite !length_append in Hn.
      assert (0 < String.length old) by (destruct old; [congruence | simpl; lia]).
      lia.
    + rewrite replace_scan_none by assumption.
      apply ra_none. now apply contains_false.
Qed.

Lemma replace_all (s : string) :
  old <> "" -> replaced_all old new s (PyStr.replace s old new).
Proof.
  intros Hne. unfold PyStr.replace. destruct old as [|c o] eqn:E; [congruence|].
  rewrite <- E in *. apply (replace_scan_all (String.length s)); [assumption|lia].
Qed.

End ReplaceFacts.
(* ================================================================== *)
(** ** Dictionaries *)
(* ================================================================== *)

Lemma dict_get_set_eq (k : string) (v : value) (d : dict) :
  dict_get k (dict_set k v d) = Some v.
Proof.
  induction d as [|[k' v'] d IH]; simpl.
  - now rewrite String.eqb_refl.
  - destruct (String.eqb k k') eqn:E; simpl; rewrite E; [reflexivity | exact IH].
Qed.

Lemma dict_get_set_ne (k k' : string) (v : value) (d : dict) :
  k' <> k -> dict_get k' (dict_set k v d) = dict_get k' d.
Proof.
  intros Hne. induction d as [|[k0 v0] d IH]; simpl.
  - apply String.eqb_neq in Hne. now rewrite Hne.
  - destruct (String.eqb k k0) eqn:E; simpl.
    + apply String.eqb_eq in E. subst k0.
      apply String.eqb_neq in Hne. now rewrite Hne.
    + destruct (String.eqb k' k0); [reflexivity | exact IH].
Qed.

(* ================================================================== *)
(** ** The methods of FastResume, step by step *)
(* ================================================================== *)

Import FastResume.

Section MethodFacts.

Variable convert_slashes : value -> string -> exn + value.
Variable os : os_env.

Lemma bind_inv {A B : Type} (m : M A) (k : A -> M B) self t (b : B) self' :
  bind m k self = (t, inr b, self') ->
  exists t1 a s1 t2,
    m self = (t1, inr a, s1) /\ k a s1 = (t2, inr b, self') /\ t = t1 ++ t2.
Proof.
  unfold bind. destruct (m self) as [[t1 [e|a]] s1]; [discriminate|].
  destruct (k a s1) as [[t2 r] s2] eqn:E. intros H. injection H as <- -> <-.
  now exists t1, a, s1, t2.
Qed.

Lemma save_eval (file_name : option string) (self : FastResume) :
  let f := match file_name with None => _file_path self | Some f => f end in
  save os file_name self =
  match write_error os f with
  | Some e => ([Log INFO [Lit "Saving File "; Fmt (VStr f); Lit "..."]], inl e, self)
  | None => ([Log INFO [Lit "Saving File "; Fmt (VStr f); Lit "..."];
              BWrite f (_data self)], inr tt, self)
  end.
Proof.
  unfold save, bwrite, bind, file_path, emit, get_data, raise. simpl.
  destruct (write_error os _); reflexivity.
Qed.

(** A call of [set_save_path] that makes no backup and does not persist. *)
Lemma set_save_path_plain path key target_os stamp self :
  valid_key key = true ->
  set_save_path convert_slashes os path key target_os false false stamp self =
  match translated convert_slashes target_os path with
  | inl e => ([], inl e, self)
  | inr p =>
      match py_getitem (_data self) key with
      | inl e => ([], inl e, self)
      | inr old =>
          match py_setitem (_data self) key p with
          | inl e => ([set_log key old p target_os], inl e, self)
          | inr d' =>
              ([set_log key old p target_os; SetItem key p], inr tt,
               mkFastResume (_file_path self) d')
          end
      end
  end.
Proof.
  intros Hk. unfold set_save_path. rewrite Hk. simpl negb. cbv iota.
  unfold translated, set_item, when, bind, ret, lift, emit, get_data, put_data.
  destruct self as [fp d]. simpl.
  destruct target_os as [t|]; simpl.
  - destruct (convert_slashes path t) as [e|p]; [reflexivity|].
    destruct (py_getitem d key) as [e|old]; [reflexivity|].
    destruct (py_setitem d key p); reflexivity.
  - destruct (py_getitem d key) as [e|old]; [reflexivity|].
    destruct (py_setitem d key path); reflexivity.
Qed.

Lemma set_item_eval (key : string) (v : value) (self : FastResume) (d : dict) :
  _data self = VDict d ->
  set_item key v self
  = ([SetItem key v], inr tt,
     mkFastResume (_file_path self) (VDict (dict_set key v d))).
Proof.
  intros E. unfold set_item, bind, get_data, lift, put_data, emit.
  rewrite E. reflexivity.
Qed.

Lemma mapped_files_eval (self : FastResume) (d : dict) :
  _data self = VDict d ->
  mapped_files self = ([], inr (dict_get "mapped_files" d), self).
Proof.
  intros E. unfold mapped_files, bind, get_data, lift, ret. rewrite E. simpl.
  destruct (dict_get "mapped_files" d); reflexivity.
Qed.

Lemma when_save_inv (b : bool) (f : option string) self t self' :
  when b (save os f) self = (t, inr tt, self') ->
  let fn := match f with None => _file_path self | Some f => f end in
  self' = self /\ t = (if b then [save_log fn; BWrite fn (_data self)] else []) /\
  (b = true -> write_error os fn = None).
Proof.
  destruct b; simpl.
  - rewrite save_eval. destruct (write_error os _) eqn:E; [discriminate|].
    intros H. injection H as <- <-. repeat split.
  - unfold ret. intros H. injection H as <- <-. repeat split. discriminate.
Qed.

Lemma backup_eval (stamp : string) self :
  bind (backup_filename stamp) (fun bf => save os (Some bf)) self
  = save os (Some (backup_name self stamp)) self.
Proof.
  unfold backup_filename, bind, file_path, ret. simpl.
  destruct (save os _ self) as [[t r] s]. reflexivity.
Qed.

Lemma when_backup_inv (b : bool) (stamp : string) self t self' :
  when b (bf <- backup_filename stamp ;; save os (Some bf)) self
    = (t, inr tt, self') ->
  self' = self /\ t = backup_part b (backup_name self stamp) (_data self) /\
  (b = true -> write_error os (backup_name self stamp) = None).
Proof.
  destruct b; simpl.
  - rewrite backup_eval. apply (when_save_inv true).
  - unfold ret. intros H. injection H as <- <-. repeat split. discriminate.
Qed.

Lemma set_save_path_plain_inv path key target_os stamp self t self' :
  valid_key key = true ->
  set_save_path convert_slashes os path key target_os false false stamp self
    = (t, inr tt, self') ->
  exists d p old,
    _data self = VDict d /\ translated convert_slashes target_os path = inr p /\
    dict_get key d = Some old /\
    self' = mkFastResume (_file_path self) (VDict (dict_set key p d)) /\
    t = [set_log key old p target_os; SetItem key p].
Proof.
  intros Hk. rewrite set_save_path_plain by assumption.
  destruct (translated convert_slashes target_os path) as [e|p]; [discriminate|].
  destruct (_data self) as [s|b|z|l|d] eqn:Ed; simpl; try discriminate.
  destruct (dict_get key d) as [old|] eqn:Eg; [|discriminate].
  intros H. injection H as <- <-. now exists d, p, old.
Qed.

(** What a call of [set_save_paths] that returns has done. *)
Lemma set_save_paths_inv path target_os save_file create_backup stamp
    self t self' :
  set_save_paths convert_slashes os path target_os save_file create_backup
    stamp self = (t, inr tt, self') ->
  exists d p o1 o2 tm d3,
    _data self = VDict d /\
    translated convert_slashes target_os path = inr p /\
    dict_get "save_path" d = Some o1 /\
    dict_get "qBt-savePath" d = Some o2 /\
    mapped_step convert_slashes target_os
      (dict_set "qBt-savePath" p (dict_set "save_path" p d)) tm d3 /\
    self' = mkFastResume (_file_path self) (VDict d3) /\
    t = backup_part create_backup (backup_name self stamp) (VDict d)
        ++ [set_log "save_path" o1 p target_os; SetItem "save_path" p;
            set_log "qBt-savePath" o2 p target_os; SetItem "qBt-savePath" p]
        ++ tm ++ persist_part save_file (_file_path self) (VDict d3) /\
    (create_backup = true -> write_error os (backup_name self stamp) = None) /\
    (save_file = true -> write_error os (_file_path self) = None).
Proof.
  unfold set_save_paths. intros H.
  apply bind_inv in H as (t1 & [] & s1 & t1' & H1 & H & ->).
  apply when_backup_inv in H1 as (-> & -> & Hb).
  apply bind_inv in H as (t2 & [] & s2 & t2' & H2 & H & ->).
  apply set_save_path_plain_inv in H2 as (d & p & o1 & Ed & Ep & Eo1 & -> & ->);
    [|reflexivity].
  apply bind_inv in H as (t3 & [] & s3 & t3' & H3 & H & ->).
  apply set_save_path_plain_inv in H3 as (d' & p' & o2 & Ed' & Ep' & Eo2 & -> & ->);
    [|reflexivity].
  simpl in Ed'. injection Ed' as <-. rewrite Ep in Ep'. injection Ep' as <-.
  rewrite dict_get_set_ne in Eo2 by discriminate.
  set (d2 := dict_set "qBt-savePath" p (dict_set "save_path" p d)) in *.
  apply bind_inv in H as (t4 & mf & s4 & t4' & H4 & H & ->).
  rewrite (mapped_files_eval _ d2) in H4 by reflexivity.
  injection H4 as <- <- <-.
  apply bind_inv in H as (t5 & [] & s5 & t5' & H5 & H & ->).
  apply when_save_inv in H as (-> & -> & Hs). simpl in Hs.
  assert (Hm : exists tm d3, mapped_step convert_slashes target_os d2 tm d3 /\
             s5 = mkFastResume (_file_path self) (VDict d3) /\ t5 = tm).
  { destruct (dict_get "mapped_files" d2) as [mf|] eqn:Emf.
    - destruct target_os as [tg|].
      + apply bind_inv in H5 as (u1 & [] & r1 & u1' & G1 & H5 & ->).
        injection G1 as <- <-.
        apply bind_inv in H5 as (u2 & mf' & r2 & u2' & G2 & H5 & ->).
        rewrite (mapped_files_eval _ d2) in G2 by reflexivity.
        injection G2 as <- <- <-. fold d2 in H5. rewrite Emf in H5.
        apply bind_inv in H5 as (u3 & items & r3 & u3' & G3 & H5 & ->).
        unfold lift in G3. injection G3 as <- G3 <-.
        apply bind_inv in H5 as (u4 & l & r4 & u4' & G4 & H5 & ->).
        unfold lift in G4. injection G4 as <- G4 <-.
        rewrite (set_item_eval _ _ _ d2) in H5 by reflexivity.
        injection H5 as <- <-. simpl.
        eexists _, _. split; [|split; reflexivity].
        now apply (ms_rewrite _ _ _ tg mf items l).
      + injection H5 as <- <-. exists [], d2. repeat split. apply ms_keep. now left.
    - injection H5 as <- <-. exists [], d2. repeat split. apply ms_keep. now right. }
  destruct Hm as (tm & d3 & Hms & -> & ->).
  exists d, p, o1, o2, tm, d3. simpl. repeat split; try assumption.
  rewrite Ed. reflexivity.
Qed.

End MethodFacts.

(* ================================================================== *)
(** ** The setters *)
(* ================================================================== *)

Section SetterFacts.

Variable convert_slashes : value -> string -> exn + value.
Variable os : os_env.

Lemma replace_paths_eval existing_path new_path target_os save_file
    create_backup stamp self sp :
  py_getitem (_data self) "save_path" = inr (VStr sp) ->
  replace_paths convert_slashes os existing_path new_path target_os save_file
    create_backup stamp self
  = delegated self existing_path new_path
      (PyStr.replace sp existing_path new_path)
      (set_save_paths convert_slashes os
         (VStr (PyStr.replace sp existing_path new_path))
         target_os save_file create_backup stamp self).
Proof.
  intros E. unfold replace_paths, delegated.
  unfold bind at 1. unfold file_path at 1. cbv iota beta.
  unfold bind at 1. unfold emit at 1. cbv iota beta.
  unfold bind at 1. unfold save_path, bind at 1, get_data, lift.
  cbv iota beta. rewrite E. simpl py_replace. cbv iota beta.
  unfold bind at 1. cbv iota beta.
  unfold bind at 1. unfold emit at 1. cbv iota beta.
  unfold bind at 1.
  destruct (set_save_paths _ _ _ _ _ _ _ self) as [[t [e|[]]] s];
    simpl; rewrite ?app_nil_r; reflexivity.
Qed.

Lemma replace_paths_inv existing_path new_path target_os save_file
    create_backup stamp self t self' :
  replace_paths convert_slashes os existing_path new_path target_os save_file
    create_backup stamp self = (t, inr tt, self') ->
  exists sp, py_getitem (_data self) "save_path" = inr (VStr sp).
Proof.
  unfold replace_paths. intros H.
  apply bind_inv in H as (t1 & fp & s1 & t1' & H1 & H & _).
  injection H1 as _ _ <-.
  apply bind_inv in H as (t2 & [] & s2 & t2' & H2 & H & _).
  injection H2 as _ <-.
  apply bind_inv in H as (t3 & v & s3 & t3' & H3 & H & _).
  unfold save_path, bind, get_data, lift in H3.
  destruct (py_getitem (_data self) "save_path") as [e|v'] eqn:E; [discriminate|].
  injection H3 as _ <- <-.
  apply bind_inv in H as (t4 & n & s4 & t4' & H4 & _ & _).
  unfold lift in H4. injection H4 as _ H4 _.
  destruct v' as [sp| | | |]; try discriminate. now exists sp.
Qed.

Lemma mapped_step_frame target_os d tm d3 k :
  mapped_step convert_slashes target_os d tm d3 ->
  k <> "mapped_files" -> dict_get k d3 = dict_get k d.
Proof.
  intros [H|t mf items l _ _ _ _] Hk; [reflexivity|].
  now apply dict_get_set_ne.
Qed.

Lemma map_m_Forall2 {A B : Type} (f : A -> exn + B) (l : list A) (l' : list B) :
  map_m f l = inr l' -> Forall2 (fun x y => f x = inr y) l l'.
Proof.
  revert l'. induction l as [|x l IH]; simpl; intros l' H.
  - injection H as <-. constructor.
  - unfold rbind in H. destruct (f x) as [e|y] eqn:Ex; [discriminate|].
    destruct (map_m f l) as [e|ys]; [discriminate|].
    injection H as <-. constructor; [assumption | now apply IH].
Qed.

Lemma append_neq_self (s : string) (c : ascii) (r : string) :
  s +++ String c r <> s.
Proof.
  intros H. apply (f_equal String.length) in H.
  rewrite length_append in H. simpl in H. lia.
Qed.

Lemma backup_name_fresh (self : FastResume) (stamp : string) :
  backup_name self stamp <> _file_path self.
Proof. apply append_neq_self. Qed.

Lemma bind_intro {A B : Type} (m : M A) (k : A -> M B) self t1 a s1 t2 r s2 :
  m self = (t1, inr a, s1) -> k a s1 = (t2, r, s2) ->
  bind m k self = (t1 ++ t2, r, s2).
Proof. intros E1 E2. unfold bind. now rewrite E1, E2. Qed.

Lemma when_save_eval (b : bool) (self : FastResume) :
  (b = true -> write_error os (_file_path self) = None) ->
  when b (save os None) self
  = (persist_part b (_file_path self) (_data self), inr tt, self).
Proof.
  destruct b; [|reflexivity]. intros H. simpl. rewrite save_eval.
  now rewrite (H eq_refl).
Qed.

Lemma when_backup_eval (b : bool) (stamp : string) (self : FastResume) :
  (b = true -> write_error os (backup_name self stamp) = None) ->
  when b (bf <- backup_filename stamp ;; save os (Some bf)) self
  = (backup_part b (backup_name self stamp) (_data self), inr tt, self).
Proof.
  destruct b; [|reflexivity]. intros H. simpl. rewrite backup_eval, save_eval.
  now rewrite (H eq_refl).
Qed.

Lemma mapped_step_eval target_os d2 tm d3 (fp : string) :
  mapped_step convert_slashes target_os d2 tm d3 ->
  match dict_get "mapped_files" d2, target_os with
  | Some _, Some t =>
      emit (Log DEBUG [Lit "Converting Slashes for mapped_files..."]) ;;;
      mf' <- mapped_files ;;
      items <- lift (match mf' with
                     | Some v => py_iter v
                     | None =>
                         inl (TypeError "'NoneType' object is not iterable")
                     end) ;;
      l <- lift (map_m (fun p => convert_slashes p t) items) ;;
      set_item "mapped_files" (VList l)
  | _, _ => ret tt
  end (mkFastResume fp (VDict d2))
  = (tm, inr tt, mkFastResume fp (VDict d3)).
Proof.
  set (s2 := mkFastResume fp (VDict d2)).
  intros [Hk | tg mf items l Et Eg Ei El].
  - destruct Hk as [Hk | Hk]; rewrite Hk;
      [now destruct (dict_get _ _) | reflexivity].
  - subst target_os. rewrite Eg.
    apply (bind_intro _ _ s2 [mapped_log] tt s2); [reflexivity|].
    apply (bind_intro _ _ s2 [] (Some mf) s2).
    { rewrite (mapped_files_eval s2 d2) by reflexivity. now rewrite Eg. }
    apply (bind_intro _ _ s2 [] items s2); [unfold lift; now rewrite Ei|].
    apply (bind_intro _ _ s2 [] l s2); [unfold lift; now rewrite El|].
    now apply set_item_eval.
Qed.

(** When [set_save_paths] returns: the record is a dictionary with both
    save paths, the translations succeed, and the files can be written. *)
Lemma set_save_paths_returns path target_os save_file create_backup stamp
    self d p o1 o2 tm d3 :
  _data self = VDict d ->
  translated convert_slashes target_os path = inr p ->
  dict_get "save_path" d = Some o1 ->
  dict_get "qBt-savePath" d = Some o2 ->
  mapped_step convert_slashes target_os
    (dict_set "qBt-savePath" p (dict_set "save_path" p d)) tm d3 ->
  (create_backup = true -> write_error os (backup_name self stamp) = None) ->
  (save_file = true -> write_error os (_file_path self) = None) ->
  set_save_paths convert_slashes os path target_os save_file create_backup
    stamp self
  = (backup_part create_backup (backup_name self stamp) (VDict d)
     ++ [set_log "save_path" o1 p target_os; SetItem "save_path" p;
         set_log "qBt-savePath" o2 p target_os; SetItem "qBt-savePath" p]
     ++ tm ++ persist_part save_file (_file_path self) (VDict d3),
     inr tt, mkFastResume (_file_path self) (VDict d3)).
Proof.
  intros Ed Ep E1 E2 Hm Hb Hs.
  set (d1 := dict_set "save_path" p d) in *.
  set (d2 := dict_set "qBt-savePath" p d1) in *.
  set (s1 := mkFastResume (_file_path self) (VDict d1)).
  set (s2 := mkFastResume (_file_path self) (VDict d2)).
  set (s3 := mkFastResume (_file_path self) (VDict d3)).
  assert (G : set_save_paths convert_slashes os path target_os save_file
                create_backup stamp self
    = (backup_part create_backup (backup_name self stamp) (_data self)
       ++ [set_log "save_path" o1 p target_os; SetItem "save_path" p]
       ++ [set_log "qBt-savePath" o2 p target_os; SetItem "qBt-savePath" p]
       ++ [] ++ tm ++ persist_part save_file (_file_path s3) (_data s3),
       inr tt, s3)).
  { unfold set_save_paths.
    apply (bind_intro _ _ self _ tt self); [now apply when_backup_eval|].
    apply (bind_intro _ _ self _ tt s1).
    { rewrite set_save_path_plain by reflexivity. rewrite Ep, Ed. simpl.
      now rewrite E1. }
    apply (bind_intro _ _ s1 _ tt s2).
    { rewrite set_save_path_plain by reflexivity. rewrite Ep. simpl.
      unfold d1. rewrite dict_get_set_ne by discriminate. now rewrite E2. }
    apply (bind_intro _ _ s2 _ (dict_get "mapped_files" d2) s2);
      [now apply mapped_files_eval|].
    apply (bind_intro _ _ s2 _ tt s3); [|now apply when_save_eval].
    now apply mapped_step_eval. }
  rewrite G, Ed. reflexivity.
Qed.

End SetterFacts.

(* ================================================================== *)
(** ** Properties of the setters *)
(* ================================================================== *)

Section SetterClaims.

Variable convert_slashes : value -> string -> exn + value.
Variable os : os_env.

(** C8: [set_save_path] with a key other than [save_path] and
    [qBt-savePath] raises [KeyError] before it does anything: the call has
    no event (no backup written, nothing persisted), the record is as it
    was, and the exception is the outcome of the call. *)
Theorem set_save_path_rejects_other_keys path key target_os save_file
    create_backup stamp self :
  key <> "save_path" -> key <> "qBt-savePath" ->
  exists msg,
    set_save_path convert_slashes os path key target_os save_file
      create_backup stamp self
    = ([], inl (KeyError msg), self).
Proof.
  intros H1 H2. unfold set_save_path, valid_key.
  apply String.eqb_neq in H1, H2. rewrite H1, H2. simpl.
  eexists. reflexivity.
Qed.

(** C10: after a call of [set_save_paths] that returns, and so after a call
    of [replace_paths] that returns, the save path and the client save path
    of the record are the same value: the path given (for [replace_paths],
    the save path after replacement), translated when a target is given. *)
Theorem save_paths_agree_after_set target_os save_file create_backup stamp
    self t self' :
  (forall path,
     set_save_paths convert_slashes os path target_os save_file
       create_backup stamp self = (t, inr tt, self') ->
     exists p,
       translated convert_slashes target_os path = inr p /\
       save_path self' = ([], inr p, self') /\
       qbt_save_path self' = ([], inr p, self')) /\
  (forall existing_path new_path,
     replace_paths convert_slashes os existing_path new_path target_os
       save_file create_backup stamp self = (t, inr tt, self') ->
     exists sp p,
       save_path self = ([], inr (VStr sp), self) /\
       translated convert_slashes target_os
         (VStr (PyStr.replace sp existing_path new_path)) = inr p /\
       save_path self' = ([], inr p, self') /\
       qbt_save_path self' = ([], inr p, self')).
Proof.
  assert (Hset : forall path u,
     set_save_paths convert_slashes os path target_os save_file
       create_backup stamp self = (u, inr tt, self') ->
     exists p,
       translated convert_slashes target_os path = inr p /\
       save_path self' = ([], inr p, self') /\
       qbt_save_path self' = ([], inr p, self')).
  { intros path u H.
    apply set_save_paths_inv in H
      as (d & p & o1 & o2 & tm & d3 & Ed & Ep & _ & _ & Hm & -> & _).
    exists p. split; [assumption|].
    unfold save_path, qbt_save_path, bind, get_data, lift. simpl.
    rewrite !(mapped_step_frame _ _ _ _ _ _ Hm) by discriminate.
    rewrite dict_get_set_eq.
    rewrite dict_get_set_ne by discriminate. rewrite dict_get_set_eq.
    split; reflexivity. }
  split; [intros path; apply Hset|].
  intros existing_path new_path H.
  destruct (replace_paths_inv _ _ _ _ _ _ _ _ _ _ _ H) as [sp Esp].
  rewrite (replace_paths_eval _ _ _ _ _ _ _ _ _ _ Esp) in H.
  unfold delegated in H.
  destruct (set_save_paths _ _ _ _ _ _ _ self) as [[u r] s] eqn:E.
  simpl in H. injection H as _ -> ->.
  exists sp. destruct (Hset _ _ E) as (p & Hp & H1 & H2).
  exists p. repeat split; try assumption.
  unfold save_path, bind, get_data, lift. now rewrite Esp.
Qed.

(** C9: a call of [set_save_paths] that returns leaves every field other
    than the two save paths and the mapped files as it was; when a target
    is given and the record has the mapped files, it rewrites them: the new
    value is the list of what [convert_slashes] gives for each item of the
    old value, in order (the items of a list are its entries, all of them);
    otherwise it leaves the field as it was, present or absent. *)
Theorem set_save_paths_frame path target_os save_file create_backup stamp
    self t self' :
  set_save_paths convert_slashes os path target_os save_file create_backup
    stamp self = (t, inr tt, self') ->
  exists d d',
    _data self = VDict d /\ _data self' = VDict d' /\
    (forall k, k <> "save_path" -> k <> "qBt-savePath" ->
               k <> "mapped_files" -> dict_get k d' = dict_get k d) /\
    match target_os, dict_get "mapped_files" d with
    | Some tg, Some mf =>
        exists items l,
          py_iter mf = inr items /\
          (forall entries, mf = VList entries -> items = entries) /\
          Forall2 (fun x y => convert_slashes x tg = inr y) items l /\
          dict_get "mapped_files" d' = Some (VList l) /\
          In (SetItem "mapped_files" (VList l)) t
    | _, _ =>
        dict_get "mapped_files" d' = dict_get "mapped_files" d /\
        forall v, ~ In (SetItem "mapped_files" v) t
    end.
Proof.
  intros H.
  apply set_save_paths_inv in H
    as (d & p & o1 & o2 & tm & d3 & Ed & Ep & _ & _ & Hm & -> & -> & _).
  exists d, d3. split; [assumption|]. split; [reflexivity|].
  set (d2 := dict_set "qBt-savePath" p (dict_set "save_path" p d)) in *.
  assert (Hd2 : forall k, k <> "save_path" -> k <> "qBt-savePath" ->
                          dict_get k d2 = dict_get k d).
  { intros k H1 H2. unfold d2. now rewrite !dict_get_set_ne. }
  split.
  { intros k H1 H2 H3. rewrite (mapped_step_frame _ _ _ _ _ _ Hm) by assumption.
    now apply Hd2. }
  assert (Hmf : dict_get "mapped_files" d2 = dict_get "mapped_files" d)
    by (apply Hd2; discriminate).
  assert (Hnone : forall v,
    ~ In (SetItem "mapped_files" v)
         (backup_part create_backup (backup_name self stamp) (VDict d)
          ++ [set_log "save_path" o1 p target_os; SetItem "save_path" p;
              set_log "qBt-savePath" o2 p target_os; SetItem "qBt-savePath" p]
          ++ [] ++ persist_part save_file (_file_path self) (VDict d2))).
  { intros v Hin. apply in_app_or in Hin as [Hin|Hin].
    - destruct create_backup; simpl in Hin; intuition discriminate.
    - apply in_app_or in Hin as [Hin|Hin].
      + simpl in Hin. intuition discriminate.
      + destruct save_file; simpl in Hin; intuition discriminate. }
  destruct Hm as [Hk | tg mf items l Et Eg Ei El].
  - rewrite <- Hmf.
    destruct target_os as [tg|]; [|split; [reflexivity | exact Hnone]].
    destruct Hk as [Hk|Hk]; [discriminate|]. rewrite Hk.
    split; [reflexivity | exact Hnone].
  - subst target_os. rewrite <- Hmf, Eg.
    exists items, l. split; [assumption|].
    split; [intros entries ->; simpl in Ei; now injection Ei|].
    split; [now apply map_m_Forall2|].
    split; [apply dict_get_set_eq|].
    apply in_or_app. right. apply in_or_app. right.
    apply in_or_app. left. simpl. now right; left.
Qed.

(** C5: a call of [set_save_paths] with a backup and with persistence that
    returns has, log records aside, these effects in this order: the one
    write of the backup, holding the record as it was before the call; the
    assignment of the save path; the assignment of the client save path;
    the assignment of the mapped files, if they are rewritten; the one
    write of the record to its own file, holding the record as the call
    leaves it. The backup is another file than the record's. *)
Theorem set_save_paths_one_backup_one_persist path target_os stamp
    self t self' :
  set_save_paths convert_slashes os path target_os true true stamp self
    = (t, inr tt, self') ->
  exists p mid,
    effects t
    = BWrite (backup_name self stamp) (_data self)
      :: SetItem "save_path" p :: SetItem "qBt-savePath" p
      :: mid ++ [BWrite (_file_path self) (_data self')] /\
    (mid = [] \/ exists l, mid = [SetItem "mapped_files" l]) /\
    backup_name self stamp <> _file_path self.
Proof.
  intros H.
  apply set_save_paths_inv in H
    as (d & p & o1 & o2 & tm & d3 & Ed & Ep & _ & _ & Hm & -> & -> & _).
  rewrite Ed. exists p.
  destruct Hm as [Hk | tg mf items l Et Eg Ei El].
  - exists []. split; [reflexivity|]. split; [now left|].
    apply backup_name_fresh.
  - exists [SetItem "mapped_files" (VList l)]. split; [reflexivity|].
    split; [right; now exists (VList l)|]. apply backup_name_fresh.
Qed.

(** C1, as the code has it: [replace_paths] takes the save path of the
    record, replaces every occurrence of [existing_path] in it by
    [new_path] (from the left, occurrences not overlapping; an empty
    [existing_path] occurs before every character and at the end), and
    hands the result to [set_save_paths] with its own arguments, adding its
    log records before and after. *)
Theorem replace_paths_replaces_every_occurrence existing_path new_path
    target_os save_file create_backup stamp self sp :
  py_getitem (_data self) "save_path" = inr (VStr sp) ->
  exists p,
    (existing_path <> "" -> replaced_all existing_path new_path sp p) /\
    (existing_path = "" -> p = PyStr.interleave new_path sp) /\
    replace_paths convert_slashes os existing_path new_path target_os
      save_file create_backup stamp self
    = delegated self existing_path new_path p
        (set_save_paths convert_slashes os (VStr p) target_os save_file
           create_backup stamp self).
Proof.
  intros E. exists (PyStr.replace sp existing_path new_path).
  split; [intros Hne; now apply replace_all|].
  split; [intros ->; reflexivity | now apply replace_paths_eval].
Qed.

End SetterClaims.

Lemma set_save_path_rejects_other_keys_witness :
  "name" <> "save_path" /\ "name" <> "qBt-savePath" /\
  exists msg,
    set_save_path convert_slashes_model demo_os (VStr "/mnt/new") "name"
      (Some "Linux") true true "20240101120000" movies
    = ([], inl (KeyError msg), movies).
Proof.
  split; [discriminate|]. split; [discriminate|].
  apply set_save_path_rejects_other_keys; discriminate.
Defined.

(* ================================================================== *)
(** ** Where the setters write *)
(* ================================================================== *)

Section WriteFacts.

Variable convert_slashes : value -> string -> exn + value.
Variable os : os_env.

Lemma po_silent {A : Type} (m : M A) :
  (forall self, exists r d,
     m self = ([], r, mkFastResume (_file_path self) d)) ->
  persist_only m.
Proof.
  intros Hm self t r self' H. destruct (Hm self) as (r0 & d & E).
  rewrite E in H. injection H as <- _ <-. split; [reflexivity|].
  intros f d' [].
Qed.

Lemma po_ret {A : Type} (a : A) : persist_only (ret a).
Proof. apply po_silent. intros [fp d]. now exists (inr a), d. Qed.

Lemma po_raise {A : Type} (e : exn) : persist_only (@raise A e).
Proof. apply po_silent. intros [fp d]. now exists (inl e), d. Qed.

Lemma po_lift {A : Type} (r : exn + A) : persist_only (lift r).
Proof. apply po_silent. intros [fp d]. now exists r, d. Qed.

Lemma po_get_data : persist_only get_data.
Proof. apply po_silent. intros [fp d]. now exists (inr d), d. Qed.

Lemma po_file_path : persist_only file_path.
Proof. apply po_silent. intros [fp d]. now exists (inr fp), d. Qed.

Lemma po_put_data (d : value) : persist_only (put_data d).
Proof. apply po_silent. intros [fp d0]. now exists (inr tt), d. Qed.

Lemma po_emit (e : event) :
  (forall f d, e <> BWrite f d) -> persist_only (emit e).
Proof.
  intros He self t r self' H. injection H as <- _ <-.
  split; [reflexivity|]. intros f d [E|[]]. now apply He in E.
Qed.

Lemma po_bind {A B : Type} (m : M A) (k : A -> M B) :
  persist_only m -> (forall a, persist_only (k a)) -> persist_only (bind m k).
Proof.
  intros Hm Hk self t r self'. unfold bind.
  destruct (m self) as [[t1 [e|a]] s1] eqn:E1.
  - intros H. injection H as <- _ <-. exact (Hm _ _ _ _ E1).
  - destruct (k a s1) as [[t2 r2] s2] eqn:E2. intros H.
    injection H as <- _ <-.
    destruct (Hm _ _ _ _ E1) as [F1 W1]. destruct (Hk a _ _ _ _ E2) as [F2 W2].
    split; [congruence|]. intros f d Hin.
    apply in_app_or in Hin as [Hin|Hin]; [now apply (W1 f d)|].
    rewrite <- F1. now apply (W2 f d).
Qed.

Lemma po_when (b : bool) (m : M unit) :
  persist_only m -> persist_only (when b m).
Proof. destruct b; [trivial | intros _; apply po_ret]. Qed.

Lemma po_save : persist_only (save os None).
Proof.
  intros self t r self' H. rewrite save_eval in H.
  destruct (write_error os (_file_path self)); injection H as <- _ <-;
    (split; [reflexivity|]); intros f d Hin; simpl in Hin.
  - destruct Hin as [Hin|[]]. discriminate.
  - destruct Hin as [Hin|[Hin|[]]]; [discriminate|]. now injection Hin as <- _.
Qed.

Lemma po_set_item (key : string) (v : value) : persist_only (set_item key v).
Proof.
  unfold set_item.
  apply po_bind; [apply po_get_data | intros d].
  apply po_bind; [apply po_lift | intros d'].
  apply po_bind; [apply po_put_data | intros _].
  apply po_emit. discriminate.
Qed.

Lemma po_mapped_files : persist_only mapped_files.
Proof.
  unfold mapped_files.
  apply po_bind; [apply po_get_data | intros d].
  apply po_bind; [apply po_lift | intros [|]]; [|apply po_ret].
  apply po_bind; [apply po_lift | intros v]. apply po_ret.
Qed.

(** Behind the backup, [set_save_path] writes to the record's file only. *)
Lemma po_set_save_path_rest path key target_os save_file :
  persist_only
    (path <- match target_os with
             | Some t => lift (convert_slashes path t)
             | None => ret path
             end ;;
     d <- get_data ;;
     old <- lift (py_getitem d key) ;;
     emit (Log DEBUG [Lit "Setting "; Fmt (VStr key); Lit "... Old: "; Fmt old;
                      Lit ", New: "; Fmt path; Lit ", Target OS: ";
                      FmtOpt target_os]) ;;;
     set_item key path ;;;
     when save_file (save os None)).
Proof.
  apply po_bind; [destruct target_os; [apply po_lift | apply po_ret] | intros p].
  apply po_bind; [apply po_get_data | intros d].
  apply po_bind; [apply po_lift | intros old].
  apply po_bind; [apply po_emit; discriminate | intros _].
  apply po_bind; [apply po_set_item | intros _].
  apply po_when, po_save.
Qed.

Lemma po_set_save_path_plain path key target_os save_file stamp :
  persist_only
    (set_save_path convert_slashes os path key target_os save_file false stamp).
Proof.
  unfold set_save_path. destruct (negb (valid_key key)); [apply po_raise|].
  apply po_bind; [apply po_ret | intros _]. apply po_set_save_path_rest.
Qed.

(** Behind the backup, [set_save_paths] writes to the record's file only. *)
Lemma po_set_save_paths_rest path target_os save_file stamp :
  persist_only
    (set_save_path convert_slashes os path "save_path" target_os false false
       stamp ;;;
     set_save_path convert_slashes os path "qBt-savePath" target_os false
       false stamp ;;;
     mf <- mapped_files ;;
     match mf, target_os with
     | Some _, Some t =>
         emit (Log DEBUG [Lit "Converting Slashes for mapped_files..."]) ;;;
         mf' <- mapped_files ;;
         items <- lift (match mf' with
                        | Some v => py_iter v
                        | None =>
                            inl (TypeError "'NoneType' object is not iterable")
                        end) ;;
         l <- lift (map_m (fun p => convert_slashes p t) items) ;;
         set_item "mapped_files" (VList l)
     | _, _ => ret tt
     end ;;;
     when save_file (save os None)).
Proof.
  apply po_bind; [apply po_set_save_path_plain | intros _].
  apply po_bind; [apply po_set_save_path_plain | intros _].
  apply po_bind; [apply po_mapped_files | intros mf].
  apply po_bind; [|intros _; apply po_when, po_save].
  destruct mf as [v|]; [|apply po_ret].
  destruct target_os as [t|]; [|apply po_ret].
  apply po_bind; [apply po_emit; discriminate | intros _].
  apply po_bind; [apply po_mapped_files | intros mf'].
  apply po_bind; [apply po_lift | intros items].
  apply po_bind; [apply po_lift | intros l].
  apply po_set_item.
Qed.

(** A backup followed by calls that write to the record's file only. *)
Lemma backup_then (body : M unit) (stamp : string) (self : FastResume) :
  persist_only body ->
  backs_up_prior_state self (backup_name self stamp)
    ((when true (bf <- backup_filename stamp ;; save os (Some bf)) ;;; body)
       self).
Proof.
  intros Hb. unfold bind at 1. simpl when. rewrite backup_eval, save_eval.
  destruct (write_error os (backup_name self stamp)).
  - split; simpl; [|discriminate]. intros d [H|[]]. discriminate.
  - destruct (body self) as [[t2 r] s2] eqn:E.
    destruct (Hb _ _ _ _ E) as [_ W]. split; simpl.
    + intros d [H|[H|H]]; [discriminate | now injection H |].
      apply W in H. now apply backup_name_fresh in H.
    + intros _. exists [save_log (backup_name self stamp)], t2.
      split; reflexivity.
Qed.

Lemma backs_up_silent_failure self bk (logs : list event) (e : exn) s :
  forallb is_log logs = true ->
  backs_up_prior_state self bk (logs, inl e, s).
Proof.
  intros Hl. split; simpl; [|discriminate].
  intros d Hin. rewrite forallb_forall in Hl. now apply Hl in Hin.
Qed.

Lemma replace_paths_fails existing_path new_path target_os save_file
    create_backup stamp self :
  (forall sp, py_getitem (_data self) "save_path" <> inr (VStr sp)) ->
  exists e,
    replace_paths convert_slashes os existing_path new_path target_os
      save_file create_backup stamp self
    = ([Log INFO [Lit "Replacing Paths in FastResume ";
                  Fmt (VStr (_file_path self)); Lit "..."]], inl e, self).
Proof.
  intros Hn. unfold replace_paths, bind, file_path, emit, save_path, get_data,
    lift. simpl.
  destruct (py_getitem (_data self) "save_path") as [e|v] eqn:E; simpl.
  - now exists e.
  - destruct v as [sp| | | |]; simpl; try (eexists; reflexivity).
    now destruct (Hn sp).
Qed.

End WriteFacts.

Section BackupClaim.

Variable convert_slashes : value -> string -> exn + value.
Variable os : os_env.

(** C6: each setter called with a backup writes to the backup file, if it
    writes to it at all, the record as it was when the call began; and when
    the call returns, that write has happened, with nothing but log records
    before it. *)
Theorem setters_back_up_prior_state (self : FastResume) (stamp : string)
    (target_os : option string) (save_file : bool) :
  (forall path key,
     backs_up_prior_state self (backup_name self stamp)
       (set_save_path convert_slashes os path key target_os save_file true
          stamp self)) /\
  (forall path,
     backs_up_prior_state self (backup_name self stamp)
       (set_save_paths convert_slashes os path target_os save_file true
          stamp self)) /\
  (forall existing_path new_path,
     backs_up_prior_state self (backup_name self stamp)
       (replace_paths convert_slashes os existing_path new_path target_os
          save_file true stamp self)).
Proof.
  assert (Hset : forall path,
     backs_up_prior_state self (backup_name self stamp)
       (set_save_paths convert_slashes os path target_os save_file true
          stamp self)).
  { intros path. unfold set_save_paths.
    apply backup_then, po_set_save_paths_rest. }
  split; [|split; [exact Hset|]].
  - intros path key. unfold set_save_path.
    destruct (negb (valid_key key)).
    + now apply (backs_up_silent_failure self _ []).
    + apply backup_then, po_set_save_path_rest.
  - intros existing_path new_path.
    destruct (py_getitem (_data self) "save_path") as [e|v] eqn:E.
    + destruct (replace_paths_fails convert_slashes os existing_path new_path
                  target_os save_file true stamp self) as [e' ->].
      * intros sp. congruence.
      * now apply backs_up_silent_failure.
    + destruct v as [sp| | | |];
        try (destruct (replace_paths_fails convert_slashes os existing_path
               new_path target_os save_file true stamp self) as [e' ->];
             [intros sp'; congruence | now apply backs_up_silent_failure]).
      rewrite (replace_paths_eval _ _ _ _ _ _ _ _ _ _ E).
      specialize (Hset (VStr (PyStr.replace sp existing_path new_path))).
      destruct (set_save_paths _ _ _ _ _ _ _ self) as [[t r] s].
      destruct Hset as [H1 H2]. unfold delegated. split; simpl in *.
      * intros d [H|[H|H]]; [discriminate | discriminate |].
        apply in_app_or in H as [H|H]; [now apply H1|].
        destruct r as [e|u]; simpl in H; [destruct H|].
        destruct H as [H|[]]. discriminate.
      * intros ->. destruct (H2 eq_refl) as (logs & rest & -> & Hl).
        eexists (_ :: _ :: logs), (rest ++ _).
        split; [simpl; rewrite <- app_assoc; reflexivity|]. exact Hl.
Qed.

End BackupClaim.

(* ================================================================== *)
(** ** Construction of a record *)
(* ================================================================== *)

Section InitFacts.

Variable os : os_env.

Lemma init_on_dict (file_path : string) (d : dict) :
  stat os (realpath os file_path) = Some (File (inr (VDict d))) ->
  exists t,
    FastResume.init os file_path
    = (t, match dict_get "save_path" d, dict_get "qBt-savePath" d with
          | Some _, Some _ =>
              inr (mkFastResume (realpath os file_path) (VDict d))
          | _, _ => inl missing_keys
          end).
Proof.
  intros H. unfold FastResume.init, exists_, isfile, bread_at. rewrite H.
  simpl. destruct (dict_get "save_path" d); simpl.
  - destruct (dict_get "qBt-savePath" d); simpl; eexists; reflexivity.
  - eexists; reflexivity.
Qed.

Lemma init_debug_only (file_path : string) :
  forallb is_debug (fst (FastResume.init os file_path)) = true.
Proof.
  unfold FastResume.init.
  destruct (negb (exists_ os _) || negb (isfile os _)); [reflexivity|].
  destruct (bread_at os _) as [e|data]; [reflexivity|].
  destruct (rbind _ _) as [e|[|]]; reflexivity.
Qed.

Lemma init_valid (file_path : string) fr sp qsp existing_path :
  classify os file_path = Valid fr sp qsp ->
  snd (FastResume.init os file_path) = inr fr /\
  QBTBatchMove.relevant existing_path fr
  = inr (PyStr.contains sp existing_path || PyStr.contains qsp existing_path).
Proof.
  unfold classify. intros H.
  destruct (stat os (realpath os file_path)) as [[l|[e|v]]|] eqn:Es;
    try discriminate.
  { destruct e; discriminate. }
  destruct v as [| | | |d]; try discriminate.
  destruct (init_on_dict file_path d Es) as [t Ei]. rewrite Ei.
  destruct (dict_get "save_path" d) as [v1|] eqn:E1; [|discriminate].
  destruct (dict_get "qBt-savePath" d) as [v2|] eqn:E2.
  2:{ destruct v1; discriminate. }
  destruct v1 as [s1| | | |]; try discriminate;
  destruct v2 as [s2| | | |]; try discriminate.
  injection H as <- <- <-. split; [reflexivity|].
  unfold QBTBatchMove.relevant. simpl. rewrite E1, E2. simpl.
  destruct (PyStr.contains s1 existing_path); reflexivity.
Qed.

Lemma init_malformed (file_path : string) (e : exn) :
  classify os file_path = Malformed e ->
  snd (FastResume.init os file_path) = inl e /\ QBTBatchMove.caught e = true.
Proof.
  unfold classify. intros H.
  destruct (stat os (realpath os file_path)) as [[l|[e0|v]]|] eqn:Es.
  - injection H as <-. unfold FastResume.init, exists_, isfile. rewrite Es.
    split; reflexivity.
  - destruct e0; try discriminate. injection H as <-.
    unfold FastResume.init, exists_, isfile, bread_at. rewrite Es.
    split; reflexivity.
  - destruct v as [| | | |d]; try discriminate.
    destruct (init_on_dict file_path d Es) as [t Ei]. rewrite Ei.
    destruct (dict_get "save_path" d) as [v1|] eqn:E1.
    + destruct (dict_get "qBt-savePath" d) as [v2|] eqn:E2.
      * destruct v1, v2; discriminate.
      * assert (e = missing_keys) by (destruct v1; now injection H). subst e.
        split; reflexivity.
    + injection H as <-. split; reflexivity.
  - injection H as <-. unfold FastResume.init, exists_, isfile. rewrite Es.
    split; reflexivity.
Qed.

(** C2: on a file that decodes to a dictionary, the construction returns
    the record (the real path of the file and the dictionary as decoded)
    when both [save_path] and [qBt-savePath] are keys of it, and raises
    [ValueError], returning no record, when either is absent. *)
Theorem init_requires_both_keys (file_path : string) (d : dict) :
  stat os (realpath os file_path) = Some (File (inr (VDict d))) ->
  exists t,
    FastResume.init os file_path
    = (t, match dict_get "save_path" d, dict_get "qBt-savePath" d with
          | Some _, Some _ =>
              inr (mkFastResume (realpath os file_path) (VDict d))
          | _, _ => inl missing_keys
          end).
Proof.
  intros H. unfold FastResume.init, exists_, isfile, bread_at. rewrite H.
  cbn [negb orb rbind py_contains].
  destruct (dict_get "save_path" d) as [v1|]; cbn [negb];
    [|eexists; reflexivity].
  destruct (dict_get "qBt-savePath" d) as [v2|]; cbn [negb];
    eexists; reflexivity.
Qed.

End InitFacts.

(* ================================================================== *)
(** ** Discovery *)
(* ================================================================== *)

Section DiscoverFacts.

Variable os : os_env.
Variables dir existing_path : string.

Local Abbreviation loop := (QBTBatchMove.discover_loop os dir existing_path).
Local Abbreviation class file := (classify os (path_join os dir file)).

Lemma yielded_app (t u : list event) : yielded (t ++ u) = yielded t ++ yielded u.
Proof.
  induction t as [|e t IH]; [reflexivity|].
  destruct e; simpl; rewrite IH; reflexivity.
Qed.


Lemma debug_only_quiet (t : list event) :
  forallb is_debug t = true -> yielded t = [] /\ skipped t = [].
Proof.
  induction t as [|e t IH]; [split; reflexivity|].
  simpl. intros H. apply andb_true_iff in H as [He Ht].
  destruct e as [[] msg| | | | | | |]; try discriminate. now apply IH.
Qed.

Lemma loop_skip_other (raise_on_error : bool) (file : string) (rest : list string) :
  PyStr.endswith file ".fastresume" = false ->
  loop raise_on_error (file :: rest) = loop raise_on_error rest.
Proof. intros H. simpl. now rewrite H. Qed.

Lemma loop_valid (raise_on_error : bool) (file : string) (rest : list string)
    fr sp qsp :
  PyStr.endswith file ".fastresume" = true ->
  class file = Valid fr sp qsp ->
  exists t,
    forallb is_debug t = true /\
    loop raise_on_error (file :: rest)
    = (t ++ map Yield (matching existing_path (class file))
         ++ fst (loop raise_on_error rest),
       snd (loop raise_on_error rest)).
Proof.
  intros Hs Hc. cbn [QBTBatchMove.discover_loop]. rewrite Hs, Hc.
  destruct (init_valid os _ _ _ _ existing_path Hc) as [Hi Hr].
  pose proof (init_debug_only os (path_join os dir file)) as Hd.
  destruct (FastResume.init os (path_join os dir file)) as [t r].
  simpl in Hi, Hd. subst r. rewrite Hr. exists t. split; [assumption|].
  simpl. destruct (PyStr.contains sp existing_path || PyStr.contains qsp existing_path);
    reflexivity.
Qed.

Lemma loop_malformed (raise_on_error : bool) (file : string)
    (rest : list string) (e : exn) :
  PyStr.endswith file ".fastresume" = true ->
  class file = Malformed e ->
  exists t,
    forallb is_debug t = true /\
    loop raise_on_error (file :: rest)
    = if raise_on_error then
        (t ++ [Log CRITICAL [Lit "Unable to parse "; Fmt (VStr file);
                             Lit ". Stopping Discovery!"]], Some e)
      else
        (t ++ Log WARNING [Lit "Unable to parse "; Fmt (VStr file);
                           Lit ". Skipping!"; Lit nl; Lit nl; FmtExn e]
           :: fst (loop false rest),
         snd (loop false rest)).
Proof.
  intros Hs Hc. cbn [QBTBatchMove.discover_loop]. rewrite Hs.
  destruct (init_malformed os _ _ Hc) as [Hi Hr].
  pose proof (init_debug_only os (path_join os dir file)) as Hd.
  destruct (FastResume.init os (path_join os dir file)) as [t r].
  simpl in Hi, Hd. subst r. rewrite Hr. exists t. split; [assumption|].
  destruct raise_on_error; reflexivity.
Qed.

Lemma all_classified_cons (file : string) (rest : list string) :
  all_classified os dir (file :: rest) ->
  (PyStr.endswith file ".fastresume" = true -> class file <> Unclassified) /\
  all_classified os dir rest.
Proof.
  unfold all_classified, resume_files. simpl. intros H. split.
  - intros Hs. apply H. rewrite Hs. now left.
  - intros f Hf. apply H.
    destruct (PyStr.endswith file ".fastresume"); [now right | assumption].
Qed.

Lemma valid_matching_cons (file : string) (rest : list string) :
  valid_matching os dir existing_path (file :: rest)
  = (if PyStr.endswith file ".fastresume"
     then matching existing_path (class file) else [])
    ++ valid_matching os dir existing_path rest.
Proof.
  unfold valid_matching, resume_files. cbn [filter].
  destruct (PyStr.endswith file ".fastresume"); reflexivity.
Qed.

Lemma malformed_files_cons (file : string) (rest : list string) :
  malformed_files os dir (file :: rest)
  = (if PyStr.endswith file ".fastresume" && is_malformed (class file)
     then [file] else [])
    ++ malformed_files os dir rest.
Proof.
  unfold malformed_files, resume_files. cbn [filter].
  destruct (PyStr.endswith file ".fastresume"); [|reflexivity].
  cbn [filter andb]. destruct (is_malformed (class file)); reflexivity.
Qed.

Lemma yielded_map_Yield (l : list FastResume) : yielded (map Yield l) = l.
Proof. induction l as [|x l IH]; [reflexivity | simpl; now rewrite IH]. Qed.


(** Fail fast: the loop stops at the first malformed resume file. *)
Lemma loop_fail_fast (pre : list string) (bad : string) (post : list string)
    (e : exn) :
  all_classified os dir pre ->
  malformed_files os dir pre = [] ->
  PyStr.endswith bad ".fastresume" = true ->
  class bad = Malformed e ->
  snd (loop true (pre ++ bad :: post)) = Some e /\
  yielded (fst (loop true (pre ++ bad :: post)))
  = valid_matching os dir existing_path pre.
Proof.
  intros Hall Hnone Hs Hc. induction pre as [|file rest IH].
  - cbn [app]. destruct (loop_malformed true bad post e Hs Hc) as (t & Hd & ->).
    apply debug_only_quiet in Hd as [Hy _]. cbn [fst snd].
    rewrite yielded_app, Hy. split; reflexivity.
  - apply all_classified_cons in Hall as [Hf Hrest].
    rewrite malformed_files_cons in Hnone. apply app_eq_nil in Hnone as [Hn1 Hn2].
    destruct (IH Hrest Hn2) as [IH1 IH2].
    rewrite valid_matching_cons. cbn [app].
    destruct (PyStr.endswith file ".fastresume") eqn:Hsf.
    + specialize (Hf eq_refl).
      destruct (class file) as [fr sp qsp|e'|] eqn:Hcf;
        [|discriminate|congruence].
      destruct (loop_valid true file (rest ++ bad :: post) fr sp qsp Hsf Hcf)
        as (t & Hd & ->).
      apply debug_only_quiet in Hd as [Hy _]. rewrite Hcf. cbn [fst snd].
      rewrite !yielded_app, Hy, IH2, yielded_map_Yield. split; [assumption|].
      reflexivity.
    + rewrite loop_skip_other by assumption. split; assumption.
Qed.

End DiscoverFacts.

Section DiscoverClaims.

Variable os : os_env.
Variables dir existing_path : string.

Local Abbreviation loop := (QBTBatchMove.discover_loop os dir existing_path).
Local Abbreviation class file := (classify os (path_join os dir file)).

Lemma discover_listing (raise_on_error : bool) (files : list string) :
  stat os dir = Some (Dir files) ->
  QBTBatchMove.discover_relevant_fast_resume os dir existing_path raise_on_error
  = loop raise_on_error files.
Proof.
  intros H. unfold QBTBatchMove.discover_relevant_fast_resume, listdir.
  now rewrite H.
Qed.












Lemma loop_filter (raise_on_error : bool) (files : list string) :
  loop raise_on_error files = loop raise_on_error (resume_files files).
Proof.
  induction files as [|file rest IH]; [reflexivity|].
  unfold resume_files in *. cbn [filter].
  destruct (PyStr.endswith file ".fastresume") eqn:Hs.
  - cbn [QBTBatchMove.discover_loop]. rewrite Hs, IH. reflexivity.
  - now rewrite loop_skip_other.
Qed.

Lemma debug_only_no_yield (t : list event) (fr : FastResume) :
  forallb is_debug t = true -> ~ In (Yield fr) t.
Proof.
  intros H Hin. rewrite forallb_forall in H. now apply H in Hin.
Qed.

Lemma loop_yield_sound (raise_on_error : bool) (files : list string)
    (fr : FastResume) :
  In (Yield fr) (fst (loop raise_on_error files)) ->
  exists file,
    In file (resume_files files) /\
    snd (FastResume.init os (path_join os dir file)) = inr fr /\
    QBTBatchMove.relevant existing_path fr = inr true.
Proof.
  induction files as [|file rest IH]; [intros []|].
  unfold resume_files in *. cbn [filter QBTBatchMove.discover_loop].
  destruct (PyStr.endswith file ".fastresume") eqn:Hs.
  2:{ intros H. destruct (IH H) as (f & Hf & Hi). now exists f. }
  pose proof (init_debug_only os (path_join os dir file)) as Hd.
  assert (Hrest : In (Yield fr) (fst (loop raise_on_error rest)) ->
    exists f, In f (file :: filter (fun f => PyStr.endswith f ".fastresume") rest) /\
      snd (FastResume.init os (path_join os dir f)) = inr fr /\
      QBTBatchMove.relevant existing_path fr = inr true).
  { intros H. destruct (IH H) as (f & Hf & Hi). exists f. split; [now right|exact Hi]. }
  destruct (FastResume.init os (path_join os dir file)) as [t [e|fr0]] eqn:Ei;
    simpl in Hd.
  - destruct (QBTBatchMove.caught e).
    + destruct raise_on_error; cbn [fst]; intros H.
      * apply in_app_or in H as [H|[H|[]]];
          [now apply debug_only_no_yield in H | discriminate].
      * apply in_app_or in H as [H|[H|H]];
          [now apply debug_only_no_yield in H | discriminate | now apply Hrest].
    + cbn [fst]. intros H. now apply debug_only_no_yield in H.
  - destruct (QBTBatchMove.relevant existing_path fr0) as [e|[|]] eqn:Er;
      cbn [fst]; intros H.
    + now apply debug_only_no_yield in H.
    + apply in_app_or in H as [H|[H|H]];
        [now apply debug_only_no_yield in H | | now apply Hrest].
      injection H as ->. exists file. split; [now left|].
      rewrite Ei. split; [reflexivity | assumption].
    + apply in_app_or in H as [H|H];
        [now apply debug_only_no_yield in H | now apply Hrest].
Qed.

Lemma loop_app (raise_on_error : bool) (pre post : list string) :
  snd (loop raise_on_error pre) = None ->
  loop raise_on_error (pre ++ post)
  = (fst (loop raise_on_error pre) ++ fst (loop raise_on_error post),
     snd (loop raise_on_error post)).
Proof.
  induction pre as [|file rest IH].
  - intros _. simpl. now destruct (loop raise_on_error post).
  - cbn [app QBTBatchMove.discover_loop].
    destruct (PyStr.endswith file ".fastresume"); [|exact IH].
    destruct (FastResume.init os (path_join os dir file)) as [t [e|fr]].
    + destruct (QBTBatchMove.caught e); [|discriminate].
      destruct raise_on_error; [discriminate|]. cbn [fst snd]. intros H.
      rewrite (IH H). cbn [fst snd]. now rewrite <- app_assoc.
    + destruct (QBTBatchMove.relevant existing_path fr) as [e|[|]];
        [discriminate| |]; cbn [fst snd]; intros H; rewrite (IH H);
        cbn [fst snd]; now rewrite <- app_assoc.
Qed.

(** C7: discovery looks at the entries with the suffix [.fastresume] only
    (the other entries of the listing change neither its events nor its
    outcome); every record it yields was constructed from such an entry and
    has [existing_path] in its save path or in its client save path; and
    when the loop reaches such an entry and constructs a record from it,
    with strings as its two save paths, it yields the record if
    [existing_path] occurs in one of the two and does not yield it
    otherwise. *)
Theorem discover_yields_matching_resume_files (raise_on_error : bool)
    (files : list string) :
  stat os dir = Some (Dir files) ->
  QBTBatchMove.discover_relevant_fast_resume os dir existing_path raise_on_error
    = loop raise_on_error (resume_files files) /\
  (forall fr,
     In (Yield fr)
        (fst (QBTBatchMove.discover_relevant_fast_resume os dir existing_path
                raise_on_error)) ->
     exists file,
       In file (resume_files files) /\
       snd (FastResume.init os (path_join os dir file)) = inr fr /\
       QBTBatchMove.relevant existing_path fr = inr true) /\
  (forall pre file post fr sp qsp,
     files = pre ++ file :: post ->
     snd (loop raise_on_error pre) = None ->
     PyStr.endswith file ".fastresume" = true ->
     snd (FastResume.init os (path_join os dir file)) = inr fr ->
     py_getitem (_data fr) "save_path" = inr (VStr sp) ->
     py_getitem (_data fr) "qBt-savePath" = inr (VStr qsp) ->
     exists ys,
       yielded
         (fst (QBTBatchMove.discover_relevant_fast_resume os dir
                 existing_path raise_on_error))
       = yielded (fst (loop raise_on_error pre)) ++ ys
         ++ yielded (fst (loop raise_on_error post)) /\
       ((occurs existing_path sp \/ occurs existing_path qsp) /\ ys = [fr] \/
        ~ (occurs existing_path sp \/ occurs existing_path qsp) /\ ys = [])).
Proof.
  intros Hdir. rewrite (discover_listing _ files Hdir).
  split; [apply loop_filter|]. split; [apply loop_yield_sound|].
  intros pre file post fr sp qsp -> Hpre Hs Hi Hsp Hqsp.
  rewrite (loop_app _ _ _ Hpre). cbn [fst QBTBatchMove.discover_loop].
  rewrite Hs.
  pose proof (init_debug_only os (path_join os dir file)) as Hd.
  destruct (FastResume.init os (path_join os dir file)) as [t r].
  simpl in Hi, Hd. subst r. apply debug_only_quiet in Hd as [Hy _].
  unfold QBTBatchMove.relevant. rewrite Hsp, Hqsp. simpl.
  destruct (PyStr.contains sp existing_path) eqn:C1; simpl.
  - exists [fr]. rewrite !yielded_app, Hy. simpl. split; [reflexivity|].
    left. split; [|reflexivity]. left. now apply contains_spec.
  - destruct (PyStr.contains qsp existing_path) eqn:C2; simpl.
    + exists [fr]. rewrite !yielded_app, Hy. simpl. split; [reflexivity|].
      left. split; [|reflexivity]. right. now apply contains_spec.
    + exists []. rewrite !yielded_app, Hy. simpl. split; [reflexivity|].
      right. split; [|reflexivity].
      intros [H|H]; apply contains_spec in H; congruence.
Qed.

End DiscoverClaims.

(* ================================================================== *)
(** ** The batch run *)
(* ================================================================== *)

Section RunClaims.

Variable os : os_env.

Lemma archive_loop_events (folder_path : string) (files : list string) :
  forallb is_archive_event
    (fst (QBTBatchMove.archive_loop os folder_path files)) = true.
Proof.
  induction files as [|file rest IH]; [reflexivity|].
  simpl. destruct (exists_ os _); [exact IH | reflexivity].
Qed.

Lemma backup_folder_events (folder_path archive_path : string) :
  forallb is_archive_event
    (fst (QBTBatchMove.backup_folder os folder_path archive_path)) = true.
Proof.
  unfold QBTBatchMove.backup_folder.
  destruct (write_error os archive_path); [reflexivity|].
  destruct (listdir os folder_path) as [e|files]; [reflexivity|].
  simpl. apply archive_loop_events.
Qed.

(** C4: when nothing is at the source directory, or what is there is not a
    directory, [run] raises [NotADirectoryError] with no event at all; when
    the directory is there, a backup is asked for and making the archive
    raises, [run] raises that exception and its events are those of the
    archive alone: no record was discovered, no thread started, no record
    file written. *)
Theorem run_stops_on_directory_failures (self : QBTBatchMove)
    (existing_path new_path : string) (target_os : option string)
    (skip_bad_files : bool) (stamp : string) :
  (exists_ os (bt_backup_path self) = false \/
   isdir os (bt_backup_path self) = false ->
   forall create_backup,
     QBTBatchMove.run os self existing_path new_path target_os create_backup
       skip_bad_files stamp
     = ([], Some (NotADirectoryError (bt_backup_path self)))) /\
  (isdir os (bt_backup_path self) = true ->
   forall t e,
     QBTBatchMove.backup_folder os (bt_backup_path self)
       (archive_name os self stamp) = (t, Some e) ->
     QBTBatchMove.run os self existing_path new_path target_os true
       skip_bad_files stamp = (t, Some e) /\
     forallb is_archive_event t = true).
Proof.
  split.
  - intros H cb. unfold QBTBatchMove.run.
    destruct H as [-> | ->]; [reflexivity|].
    now rewrite orb_true_r.
  - intros Hd t e Hb. unfold QBTBatchMove.run.
    assert (He : exists_ os (bt_backup_path self) = true).
    { unfold isdir in Hd. unfold exists_.
      destruct (stat os (bt_backup_path self)); [reflexivity | discriminate]. }
    rewrite He, Hd. cbn [negb orb]. unfold archive_name in Hb.
    cbv zeta. rewrite Hb. split; [reflexivity|].
    pose proof (backup_folder_events (bt_backup_path self)
                  (path_join os (dirname os (bt_backup_path self))
                     ("fastresume_backup" +++ stamp +++ ".zip"))) as H.
    now rewrite Hb in H.
Qed.

End RunClaims.

(* ================================================================== *)
(** ** The properties at work on the examples *)
(* ================================================================== *)

Lemma replace_paths_replaces_every_occurrence_witness :
  py_getitem (_data nested) "save_path" = inr (VStr "/data/data/x") /\
  exists p,
    ("/data" <> "" -> replaced_all "/data" "/new" "/data/data/x" p) /\
    ("/data" = "" -> p = PyStr.interleave "/new" "/data/data/x") /\
    FastResume.replace_paths convert_slashes_model demo_os "/data" "/new" None
      true false "20240101120000" nested
    = delegated nested "/data" "/new" p
        (FastResume.set_save_paths convert_slashes_model demo_os (VStr p) None
           true false "20240101120000" nested).
Proof.
  split; [reflexivity|].
  apply replace_paths_replaces_every_occurrence. reflexivity.
Defined.

(** C1, as the specification has it, fails: on a save path that holds
    [existing_path] twice, [replace_paths] replaces both occurrences, where
    replacing the first only would leave the second. *)
Lemma replace_paths_first_only_counterexample :
  snd (FastResume.replace_paths convert_slashes_model demo_os "/data" "/new"
         None false false "" nested)
  = mkFastResume "/bt/nested.fastresume"
      (VDict [("save_path", VStr "/new/new/x");
              ("qBt-savePath", VStr "/new/new/x")]) /\
  PyStr.replace_first "/data/data/x" "/data" "/new" = "/new/data/x" /\
  ~ replaces_first_only.
Proof.
  split; [reflexivity|]. split; [reflexivity|].
  intros H.
  specialize (H convert_slashes_model demo_os "/data" "/new" None false false
                "" nested "/data/data/x" eq_refl).
  apply (f_equal snd) in H. vm_compute in H. discriminate.
Qed.

Lemma init_requires_both_keys_witness :
  stat demo_os (realpath demo_os "/bt/movies.fastresume")
    = Some (File (inr (VDict movies_dict))) /\
  (exists t,
     FastResume.init demo_os "/bt/movies.fastresume" = (t, inr movies)) /\
  stat demo_os (realpath demo_os "/bt/nokey.fastresume")
    = Some (File (inr (VDict [("save_path", VStr "/mnt/old/x")]))) /\
  (exists t,
     FastResume.init demo_os "/bt/nokey.fastresume" = (t, inl missing_keys)).
Proof.
  split; [reflexivity|]. split.
  - exact (init_requires_both_keys demo_os "/bt/movies.fastresume" movies_dict
             eq_refl).
  - split; [reflexivity|].
    exact (init_requires_both_keys demo_os "/bt/nokey.fastresume"
             [("save_path", VStr "/mnt/old/x")] eq_refl).
Defined.




Lemma run_stops_on_directory_failures_witness :
  (exists_ demo_os "/nowhere" = false \/ isdir demo_os "/nowhere" = false) /\
  QBTBatchMove.run demo_os (mkQBTBatchMove "/nowhere") "/mnt/old" "/mnt/new"
    None true false "20240101120000"
  = ([], Some (NotADirectoryError "/nowhere")) /\
  isdir readonly_os "/bt" = true /\
  QBTBatchMove.backup_folder readonly_os "/bt"
    (archive_name readonly_os (mkQBTBatchMove "/bt") "20240101120000")
  = ([Log INFO [Lit "Creating Archive ";
                Fmt (VStr "/fastresume_backup20240101120000.zip");
                Lit " ..."]],
     Some (OSError "Read-only file system")) /\
  QBTBatchMove.run readonly_os (mkQBTBatchMove "/bt") "/mnt/old" "/mnt/new"
    None true false "20240101120000"
  = ([Log INFO [Lit "Creating Archive ";
                Fmt (VStr "/fastresume_backup20240101120000.zip");
                Lit " ..."]],
     Some (OSError "Read-only file system")).
Proof.
  split; [now left|]. split.
  - apply (proj1 (run_stops_on_directory_failures demo_os
                    (mkQBTBatchMove "/nowhere") "/mnt/old" "/mnt/new" None
                    false "20240101120000")).
    now left.
  - split; [reflexivity|]. split; [reflexivity|].
    apply (proj2 (run_stops_on_directory_failures readonly_os
                    (mkQBTBatchMove "/bt") "/mnt/old" "/mnt/new" None
                    false "20240101120000") eq_refl).
    reflexivity.
Defined.

Lemma set_save_paths_one_backup_one_persist_witness :
  movies_set = (fst (fst movies_set), inr tt, snd movies_set) /\
  exists p mid,
    effects (fst (fst movies_set))
    = BWrite (backup_name movies "20240101120000") (_data movies)
      :: SetItem "save_path" p :: SetItem "qBt-savePath" p
      :: mid ++ [BWrite (_file_path movies) (_data (snd movies_set))] /\
    (mid = [] \/ exists l, mid = [SetItem "mapped_files" l]) /\
    backup_name movies "20240101120000" <> _file_path movies.
Proof.
  split; [reflexivity|].
  apply (set_save_paths_one_backup_one_persist convert_slashes_model demo_os
           (VStr "/mnt/new/data/movies") (Some "Windows") "20240101120000").
  reflexivity.
Defined.

Lemma setters_back_up_prior_state_witness :
  backs_up_prior_state movies (backup_name movies "20240101120000")
    movies_replaced.
Proof.
  apply (setters_back_up_prior_state convert_slashes_model demo_os movies
           "20240101120000" (Some "Windows") true).
Defined.

Lemma discover_yields_matching_resume_files_witness :
  stat demo_os "/bt" = Some (Dir demo_listing) /\
  demo_listing
    = ["movies.fastresume"; "notes.txt"; "nokey.fastresume"]
      ++ "music.fastresume" :: ["broken.fastresume"] /\
  snd (QBTBatchMove.discover_loop demo_os "/bt" "/srv" false
         ["movies.fastresume"; "notes.txt"; "nokey.fastresume"]) = None /\
  PyStr.endswith "music.fastresume" ".fastresume" = true /\
  exists fr,
    snd (FastResume.init demo_os (path_join demo_os "/bt" "music.fastresume"))
      = inr fr /\
    py_getitem (_data fr) "save_path" = inr (VStr "/srv/music") /\
    py_getitem (_data fr) "qBt-savePath" = inr (VStr "/srv/music") /\
    exists ys,
      yielded (fst (QBTBatchMove.discover_relevant_fast_resume demo_os "/bt"
                      "/srv" false))
      = yielded (fst (QBTBatchMove.discover_loop demo_os "/bt" "/srv" false
                        ["movies.fastresume"; "notes.txt"; "nokey.fastresume"]))
        ++ ys
        ++ yielded (fst (QBTBatchMove.discover_loop demo_os "/bt" "/srv" false
                           ["broken.fastresume"])) /\
      ((occurs "/srv" "/srv/music" \/ occurs "/srv" "/srv/music") /\ ys = [fr]
       \/ ~ (occurs "/srv" "/srv/music" \/ occurs "/srv" "/srv/music")
          /\ ys = []).
Proof.
  split; [reflexivity|]. split; [reflexivity|]. split; [reflexivity|].
  split; [reflexivity|].
  eexists. split; [reflexivity|]. split; [reflexivity|]. split; [reflexivity|].
  destruct (discover_yields_matching_resume_files demo_os "/bt" "/srv" false
              demo_listing eq_refl) as (_ & _ & H).
  exact (H ["movies.fastresume"; "notes.txt"; "nokey.fastresume"]
           "music.fastresume" ["broken.fastresume"] _ "/srv/music" "/srv/music"
           eq_refl eq_refl eq_refl eq_refl eq_refl eq_refl).
Defined.

Lemma set_save_paths_frame_witness :
  movies_set = (fst (fst movies_set), inr tt, snd movies_set) /\
  FastResume.mapped_files movies
    = ([], inr (Some (VList [VStr "a/b.mkv"; VStr "c.srt"])), movies) /\
  FastResume.mapped_files (snd movies_set)
    = ([], inr (Some (VList [VStr "a\b.mkv"; VStr "c.srt"])), snd movies_set) /\
  exists d d',
    _data movies = VDict d /\ _data (snd movies_set) = VDict d' /\
    (forall k, k <> "save_path" -> k <> "qBt-savePath" ->
               k <> "mapped_files" -> dict_get k d' = dict_get k d) /\
    match Some "Windows", dict_get "mapped_files" d with
    | Some tg, Some mf =>
        exists items l,
          py_iter mf = inr items /\
          (forall entries, mf = VList entries -> items = entries) /\
          Forall2 (fun x y => convert_slashes_model x tg = inr y) items l /\
          dict_get "mapped_files" d' = Some (VList l) /\
          In (SetItem "mapped_files" (VList l)) (fst (fst movies_set))
    | _, _ =>
        dict_get "mapped_files" d' = dict_get "mapped_files" d /\
        forall v, ~ In (SetItem "mapped_files" v) (fst (fst movies_set))
    end.
Proof.
  split; [reflexivity|]. split; [reflexivity|]. split; [reflexivity|].
  apply (set_save_paths_frame convert_slashes_model demo_os
           (VStr "/mnt/new/data/movies") (Some "Windows") true true
           "20240101120000").
  reflexivity.
Defined.

Lemma save_paths_agree_after_set_witness :
  movies_set = (fst (fst movies_set), inr tt, snd movies_set) /\
  (exists p,
     translated convert_slashes_model (Some "Windows")
       (VStr "/mnt/new/data/movies") = inr p /\
     FastResume.save_path (snd movies_set) = ([], inr p, snd movies_set) /\
     FastResume.qbt_save_path (snd movies_set) = ([], inr p, snd movies_set)) /\
  movies_replaced
    = (fst (fst movies_replaced), inr tt, snd movies_replaced) /\
  (exists sp p,
     FastResume.save_path movies = ([], inr (VStr sp), movies) /\
     translated convert_slashes_model (Some "Windows")
       (VStr (PyStr.replace sp "/mnt/old" "/mnt/new")) = inr p /\
     FastResume.save_path (snd movies_replaced)
       = ([], inr p, snd movies_replaced) /\
     FastResume.qbt_save_path (snd movies_replaced)
       = ([], inr p, snd movies_replaced)).
Proof.
  split; [reflexivity|]. split.
  - apply (proj1 (save_paths_agree_after_set convert_slashes_model demo_os
                    (Some "Windows") true true "20240101120000" movies
                    (fst (fst movies_set)) (snd movies_set))).
    reflexivity.
  - split; [reflexivity|].
    apply (proj2 (save_paths_agree_after_set convert_slashes_model demo_os
                    (Some "Windows") true true "20240101120000" movies
                    (fst (fst movies_replaced)) (snd movies_replaced))
             "/mnt/old" "/mnt/new").
    reflexivity.
Defined.

(** The scenario of the specification: [/mnt/old] becomes [/mnt/new] in both
    save paths, with the separators of the target. *)
Example movies_scenario :
  snd movies_replaced
  = mkFastResume "/bt/movies.fastresume"
      (VDict [("save_path", VStr "\mnt\new\data\movies");
              ("qBt-savePath", VStr "\mnt\new\data\movies");
              ("mapped_files", VList [VStr "a\b.mkv"; VStr "c.srt"]);
              ("total_uploaded", VInt 42)]) /\
  effects (fst (fst movies_replaced))
  = [BWrite "/bt/movies.fastresume.20240101120000.bkup" movies_data;
     SetItem "save_path" (VStr "\mnt\new\data\movies");
     SetItem "qBt-savePath" (VStr "\mnt\new\data\movies");
     SetItem "mapped_files" (VList [VStr "a\b.mkv"; VStr "c.srt"]);
     BWrite "/bt/movies.fastresume" (_data (snd movies_replaced))].
Proof. split; reflexivity. Qed.

Example demo_discovery :
  yielded (fst (QBTBatchMove.discover_relevant_fast_resume demo_os "/bt"
                  "/mnt/old" false)) = [movies] /\
  skipped (fst (QBTBatchMove.discover_relevant_fast_resume demo_os "/bt"
                  "/mnt/old" false))
  = ["nokey.fastresume"; "broken.fastresume"] /\
  yielded (fst (QBTBatchMove.discover_relevant_fast_resume demo_os "/bt"
                  "/srv" true)) = [] /\
  snd (QBTBatchMove.discover_relevant_fast_resume demo_os "/bt" "/srv" true)
  = Some missing_keys.
Proof. repeat split; reflexivity. Qed.

(* ================================================================== *)
(** ** Further properties: the archive of the directory *)
(* ================================================================== *)

Section ArchiveFacts.

Variable os : os_env.



Lemma archive_loop_shape (folder_path : string) (files : list string) :
  exists written,
    fst (QBTBatchMove.archive_loop os folder_path files)
    = zip_writes os folder_path written
      ++ ZipClose
      :: match snd (QBTBatchMove.archive_loop os folder_path files) with
         | None => [done_log]
         | Some _ => []
         end.
Proof.
  induction files as [|file rest IH]; [now exists []|].
  cbn [QBTBatchMove.archive_loop].
  destruct (exists_ os (path_join os folder_path file)); [|now exists []].
  destruct IH as [written IH]. exists (file :: written).
  cbn [fst snd]. rewrite IH. reflexivity.
Qed.



(** X3: however [backup_folder] ends, either it never opened the archive
    (creating it raised), or it opened it once, wrote entries to it, and
    closed it once, with nothing written behind the close; the record
    [Done!] is logged exactly when the call returns. *)
Theorem backup_folder_closes_what_it_opens (folder_path archive_path : string) :
  (fst (QBTBatchMove.backup_folder os folder_path archive_path)
     = [archive_log archive_path] /\
   snd (QBTBatchMove.backup_folder os folder_path archive_path)
     = write_error os archive_path /\
   write_error os archive_path <> None) \/
  (exists written,
     fst (QBTBatchMove.backup_folder os folder_path archive_path)
     = archive_log archive_path :: ZipOpen archive_path
       :: zip_writes os folder_path written
       ++ ZipClose
       :: match snd (QBTBatchMove.backup_folder os folder_path archive_path)
          with
          | None => [done_log]
          | Some _ => []
          end).
Proof.
  unfold QBTBatchMove.backup_folder.
  destruct (write_error os archive_path) as [e|]; [left; now repeat split|].
  right. destruct (listdir os folder_path) as [e|files]; [now exists []|].
  destruct (archive_loop_shape folder_path files) as [written H].
  exists written. cbn [fst snd app]. now rewrite H.
Qed.

End ArchiveFacts.



Lemma backup_folder_closes_what_it_opens_witness :
  fst (QBTBatchMove.backup_folder readonly_os "/bt" "/backup.zip")
    = [archive_log "/backup.zip"] /\
  exists written,
    fst (QBTBatchMove.backup_folder dangling_os "/dl" "/backup.zip")
    = archive_log "/backup.zip" :: ZipOpen "/backup.zip"
      :: zip_writes dangling_os "/dl" written ++ [ZipClose].
Proof.
  split; [reflexivity|].
  destruct (backup_folder_closes_what_it_opens dangling_os "/dl" "/backup.zip")
    as [[H _] | [written H]]; [discriminate H|].
  exists written. exact H.
Defined.

(* ================================================================== *)
(** ** Further properties: discovery *)
(* ================================================================== *)

Section DiscoverMore.

Variable os : os_env.
Variables dir existing_path : string.

Local Abbreviation loop := (QBTBatchMove.discover_loop os dir existing_path).

Lemma debug_only_discovery (t : list event) :
  forallb is_debug t = true -> forallb is_discovery_event t = true.
Proof.
  induction t as [|e t IH]; [reflexivity|]. simpl. intros H.
  apply andb_true_iff in H as [He Ht]. rewrite (IH Ht), andb_true_r.
  destruct e; try discriminate. reflexivity.
Qed.

Lemma loop_events (raise_on_error : bool) (files : list string) :
  forallb is_discovery_event (fst (loop raise_on_error files)) = true.
Proof.
  induction files as [|file rest IH]; [reflexivity|].
  cbn [QBTBatchMove.discover_loop].
  destruct (PyStr.endswith file ".fastresume"); [|exact IH].
  pose proof (debug_only_discovery _
                (init_debug_only os (path_join os dir file))) as Hd.
  destruct (FastResume.init os (path_join os dir file)) as [t [e|fr]];
    cbn [fst] in Hd.
  - destruct (QBTBatchMove.caught e); [|exact Hd].
    destruct raise_on_error; cbn [fst]; rewrite forallb_app, Hd; [reflexivity|].
    simpl. exact IH.
  - destruct (QBTBatchMove.relevant existing_path fr) as [e|[|]]; cbn [fst];
      [exact Hd | |]; rewrite forallb_app, Hd; simpl; exact IH.
Qed.

Lemma discover_events (raise_on_error : bool) :
  forallb is_discovery_event
    (fst (QBTBatchMove.discover_relevant_fast_resume os dir existing_path
            raise_on_error)) = true.
Proof.
  unfold QBTBatchMove.discover_relevant_fast_resume.
  destruct (listdir os dir) as [e|files]; [reflexivity | apply loop_events].
Qed.

(** X4: discovery reads and reports, and does nothing else: whatever the
    directory holds and however it ends, its events are log records and
    yields; it writes no file, changes no record and starts no thread. *)
Theorem discover_only_logs_and_yields (raise_on_error : bool) :
  forallb is_discovery_event
    (fst (QBTBatchMove.discover_relevant_fast_resume os dir existing_path
            raise_on_error)) = true.
Proof.
  unfold QBTBatchMove.discover_relevant_fast_resume.
  destruct (listdir os dir) as [e|files]; [reflexivity | apply loop_events].
Qed.

(** X5: an exception of the construction that the [except] clause does not
    name ends discovery also when [raise_on_error] is false: the entries
    before the file are handled as usual, the exception is the outcome, no
    record of a later entry is yielded, and the file is not logged as
    skipped. *)
Theorem discover_lets_other_exceptions_through (raise_on_error : bool)
    (pre : list string) (file : string) (post : list string) (e : exn) :
  stat os dir = Some (Dir (pre ++ file :: post)) ->
  snd (loop raise_on_error pre) = None ->
  PyStr.endswith file ".fastresume" = true ->
  snd (FastResume.init os (path_join os dir file)) = inl e ->
  QBTBatchMove.caught e = false ->
  QBTBatchMove.discover_relevant_fast_resume os dir existing_path raise_on_error
  = (fst (loop raise_on_error pre)
       ++ fst (FastResume.init os (path_join os dir file)),
     Some e).
Proof.
  intros Hd Hpre Hs Hi Hc. rewrite (discover_listing _ _ _ _ _ Hd).
  rewrite (loop_app _ _ _ _ _ _ Hpre). cbn [QBTBatchMove.discover_loop].
  rewrite Hs. destruct (FastResume.init os (path_join os dir file)) as [t r].
  cbn [snd] in Hi. subst r. rewrite Hc. reflexivity.
Qed.

(** X6: the test whether [existing_path] is in the save paths is outside
    the [try]: when it raises on a constructed record (a save path that is
    a number, say), the exception ends discovery whatever [raise_on_error]
    is, and the record is not yielded. *)
Theorem discover_raises_when_the_path_test_raises (raise_on_error : bool)
    (pre : list string) (file : string) (post : list string)
    (fr : FastResume) (e : exn) :
  stat os dir = Some (Dir (pre ++ file :: post)) ->
  snd (loop raise_on_error pre) = None ->
  PyStr.endswith file ".fastresume" = true ->
  snd (FastResume.init os (path_join os dir file)) = inr fr ->
  QBTBatchMove.relevant existing_path fr = inl e ->
  QBTBatchMove.discover_relevant_fast_resume os dir existing_path raise_on_error
  = (fst (loop raise_on_error pre)
       ++ fst (FastResume.init os (path_join os dir file)),
     Some e).
Proof.
  intros Hd Hpre Hs Hi Hr. rewrite (discover_listing _ _ _ _ _ Hd).
  rewrite (loop_app _ _ _ _ _ _ Hpre). cbn [QBTBatchMove.discover_loop].
  rewrite Hs. destruct (FastResume.init os (path_join os dir file)) as [t r].
  cbn [snd] in Hi. subst r. rewrite Hr. reflexivity.
Qed.

Lemma append_last_char (a b : string) (c c' : ascii) :
  a +++ String c "" = b +++ String c' "" -> c = c'.
Proof.
  revert b. induction a as [|x a IH]; intros [|y b]; simpl; intros H.
  - now injection H.
  - injection H as _ H. destruct b; discriminate.
  - injection H as _ H. destruct a; discriminate.
  - injection H as _ H. now apply (IH b).
Qed.

Lemma backup_is_no_resume_file (name stamp : string) :
  PyStr.endswith (name +++ "." +++ stamp +++ "." +++ "bkup") ".fastresume"
  = false.
Proof.
  apply not_true_iff_false. intros H. apply endswith_spec in H as [a Ha].
  replace (name +++ "." +++ stamp +++ "." +++ "bkup")
    with ((name +++ "." +++ stamp +++ ".bku") +++ "p") in Ha
    by (now rewrite !append_assoc).
  replace (a +++ ".fastresume") with ((a +++ ".fastresum") +++ "e") in Ha
    by (now rewrite !append_assoc).
  apply append_last_char in Ha. discriminate.
Qed.

(** X7: a backup that a setter has left next to a record (the name of the
    record, a time stamp, and [bkup]) is no resume file to discovery: the
    listing with the backup in it gives the events and the outcome of the
    listing without it. *)
Theorem discover_skips_record_backups (raise_on_error : bool)
    (pre post : list string) (name stamp : string) :
  QBTBatchMove.discover_loop os dir existing_path raise_on_error
    (pre ++ (name +++ "." +++ stamp +++ "." +++ "bkup") :: post)
  = QBTBatchMove.discover_loop os dir existing_path raise_on_error
      (pre ++ post).
Proof.
  rewrite (loop_filter _ _ _ _ (pre ++ _ :: post)).
  rewrite (loop_filter _ _ _ _ (pre ++ post)).
  unfold resume_files. rewrite !filter_app. cbn [filter].
  now rewrite backup_is_no_resume_file.
Qed.

End DiscoverMore.

Lemma discover_only_logs_and_yields_witness :
  forallb is_discovery_event
    (fst (QBTBatchMove.discover_relevant_fast_resume demo_os "/bt" "/mnt/old"
            false)) = true /\
  yielded (fst (QBTBatchMove.discover_relevant_fast_resume demo_os "/bt"
                  "/mnt/old" false)) = [movies].
Proof.
  split; [apply discover_only_logs_and_yields | reflexivity].
Defined.

Lemma discover_lets_other_exceptions_through_witness :
  stat odd_os "/odd"
    = Some (Dir (["movies.fastresume"] ++ "int.fastresume"
                   :: ["music.fastresume"])) /\
  snd (QBTBatchMove.discover_loop odd_os "/odd" "/srv" false
         ["movies.fastresume"]) = None /\
  PyStr.endswith "int.fastresume" ".fastresume" = true /\
  snd (FastResume.init odd_os (path_join odd_os "/odd" "int.fastresume"))
    = inl (TypeError "argument of type 'int' is not iterable") /\
  QBTBatchMove.caught (TypeError "argument of type 'int' is not iterable")
    = false /\
  snd (QBTBatchMove.discover_relevant_fast_resume odd_os "/odd" "/srv" false)
    = Some (TypeError "argument of type 'int' is not iterable") /\
  yielded (fst (QBTBatchMove.discover_relevant_fast_resume odd_os "/odd" "/srv"
                  false)) = [].
Proof.
  repeat (split; [reflexivity|]).
  rewrite (discover_lets_other_exceptions_through odd_os "/odd" "/srv" false
             ["movies.fastresume"] "int.fastresume" ["music.fastresume"]
             (TypeError "argument of type 'int' is not iterable")
             eq_refl eq_refl eq_refl eq_refl eq_refl).
  split; reflexivity.
Defined.

Lemma discover_raises_when_the_path_test_raises_witness :
  stat odd_os "/num"
    = Some (Dir ([] ++ "num.fastresume" :: ["music.fastresume"])) /\
  exists fr,
    snd (FastResume.init odd_os (path_join odd_os "/num" "num.fastresume"))
      = inr fr /\
    QBTBatchMove.relevant "/srv" fr
      = inl (TypeError "argument of type 'int' is not iterable") /\
    snd (QBTBatchMove.discover_relevant_fast_resume odd_os "/num" "/srv" false)
      = Some (TypeError "argument of type 'int' is not iterable") /\
    yielded (fst (QBTBatchMove.discover_relevant_fast_resume odd_os "/num"
                    "/srv" false)) = [].
Proof.
  split; [reflexivity|]. eexists. split; [reflexivity|].
  split; [reflexivity|].
  rewrite (discover_raises_when_the_path_test_raises odd_os "/num" "/srv" false
             [] "num.fastresume" ["music.fastresume"] _
             (TypeError "argument of type 'int' is not iterable")
             eq_refl eq_refl eq_refl eq_refl eq_refl).
  split; reflexivity.
Defined.

Lemma discover_skips_record_backups_witness :
  QBTBatchMove.discover_loop demo_os "/bt" "/mnt/old" false
    (["movies.fastresume"]
       ++ ("movies.fastresume" +++ "." +++ "20240101120000" +++ "." +++ "bkup")
       :: ["music.fastresume"])
  = QBTBatchMove.discover_loop demo_os "/bt" "/mnt/old" false
      (["movies.fastresume"] ++ ["music.fastresume"]) /\
  yielded (fst (QBTBatchMove.discover_loop demo_os "/bt" "/mnt/old" false
                  ["movies.fastresume";
                   "movies.fastresume.20240101120000.bkup";
                   "music.fastresume"])) = [movies].
Proof.
  split; [apply discover_skips_record_backups | reflexivity].
Defined.

(* ================================================================== *)
(** ** Further properties: the batch run *)
(* ================================================================== *)

Section RunMore.

Variable os : os_env.
Variable self : QBTBatchMove.
Variables existing_path new_path : string.
Variable target_os : option string.

Local Abbreviation dir := (bt_backup_path self).
Local Abbreviation thread := (batch_thread existing_path new_path target_os).

(** The archive [run] makes, if it is asked for one. *)
Local Abbreviation archive create_backup stamp :=
  (if create_backup : bool
   then QBTBatchMove.backup_folder os dir (archive_name os self stamp)
   else ([], None)).

Lemma run_after_archive (create_backup skip_bad_files : bool) (stamp : string) :
  isdir os dir = true ->
  snd (archive create_backup stamp) = None ->
  QBTBatchMove.run os self existing_path new_path target_os create_backup
    skip_bad_files stamp
  = (fst (archive create_backup stamp)
       ++ search_log existing_path
       :: flat_map (QBTBatchMove.dispatch existing_path new_path target_os)
            (fst (QBTBatchMove.discover_relevant_fast_resume os dir
                    existing_path (negb skip_bad_files))),
     snd (QBTBatchMove.discover_relevant_fast_resume os dir existing_path
            (negb skip_bad_files))).
Proof.
  intros Hd Hb. unfold QBTBatchMove.run.
  assert (He : exists_ os dir = true).
  { unfold isdir in Hd. unfold exists_.
    destruct (stat os dir); [reflexivity | discriminate]. }
  rewrite He, Hd. cbn [negb orb]. cbv zeta.
  unfold archive_name in Hb. destruct create_backup.
  - rewrite Hb. reflexivity.
  - reflexivity.
Qed.

Lemma started_app (t u : list event) : started (t ++ u) = started t ++ started u.
Proof. apply filter_app. Qed.

Lemma started_archive (t : list event) :
  forallb is_archive_event t = true -> started t = [].
Proof.
  induction t as [|e t IH]; [reflexivity|]. simpl. intros H.
  apply andb_true_iff in H as [He Ht]. rewrite (IH Ht).
  destruct e; try discriminate; reflexivity.
Qed.

Lemma started_dispatch (t : list event) :
  forallb is_discovery_event t = true ->
  started (flat_map (QBTBatchMove.dispatch existing_path new_path target_os) t)
  = map thread (yielded t).
Proof.
  induction t as [|e t IH]; [reflexivity|]. simpl. intros H.
  apply andb_true_iff in H as [He Ht]. rewrite started_app, (IH Ht).
  destruct e; try discriminate; reflexivity.
Qed.

Lemma archive_events (create_backup : bool) (stamp : string) :
  forallb is_archive_event (fst (archive create_backup stamp)) = true.
Proof.
  destruct create_backup; [apply backup_folder_events | reflexivity].
Qed.

Lemma run_started (create_backup skip_bad_files : bool) (stamp : string) :
  isdir os dir = true ->
  snd (archive create_backup stamp) = None ->
  started (fst (QBTBatchMove.run os self existing_path new_path target_os
                  create_backup skip_bad_files stamp))
  = map thread
      (yielded (fst (QBTBatchMove.discover_relevant_fast_resume os dir
                       existing_path (negb skip_bad_files)))).
Proof.
  intros Hd Hb. rewrite (run_after_archive _ _ _ Hd Hb). cbn [fst].
  rewrite started_app, (started_archive _ (archive_events _ _)).
  cbn [app started filter search_log is_thread_start]. fold (started
    (flat_map (QBTBatchMove.dispatch existing_path new_path target_os)
       (fst (QBTBatchMove.discover_relevant_fast_resume os dir existing_path
               (negb skip_bad_files))))).
  apply started_dispatch, discover_events.
Qed.

Lemma archive_if (create_backup : bool) (stamp : string) :
  (create_backup = true ->
   snd (QBTBatchMove.backup_folder os dir (archive_name os self stamp)) = None) ->
  snd (archive create_backup stamp) = None.
Proof. destruct create_backup; [intros H; now apply H | reflexivity]. Qed.

Lemma stat_dir_isdir (files : list string) :
  stat os dir = Some (Dir files) -> isdir os dir = true.
Proof. unfold isdir. now intros ->. Qed.

(** X8: when the directory is there and the archive, if asked for, was
    made, [run] ends as discovery ends, and it starts one thread for each
    record discovery yields, in that order and no other: each thread is to
    replace [existing_path] by [new_path] for [target_os], to persist, and
    to make no backup of the record. *)
Theorem run_starts_a_thread_per_discovered_record
    (create_backup skip_bad_files : bool) (stamp : string) :
  isdir os dir = true ->
  (create_backup = true ->
   snd (QBTBatchMove.backup_folder os dir (archive_name os self stamp)) = None) ->
  snd (QBTBatchMove.run os self existing_path new_path target_os create_backup
         skip_bad_files stamp)
  = snd (QBTBatchMove.discover_relevant_fast_resume os dir existing_path
           (negb skip_bad_files)) /\
  started (fst (QBTBatchMove.run os self existing_path new_path target_os
                  create_backup skip_bad_files stamp))
  = map (fun fr => ThreadStart fr existing_path new_path target_os true false)
      (yielded (fst (QBTBatchMove.discover_relevant_fast_resume os dir
                       existing_path (negb skip_bad_files)))).
Proof.
  intros Hd Hb. apply archive_if in Hb. split.
  - now rewrite (run_after_archive _ _ _ Hd Hb).
  - now apply run_started.
Qed.


(** X10: without [skip_bad_files], [run] raises at the first malformed
    resume file with the exception of its construction; the threads for
    the valid matching records listed before that file have been started
    by then and stay started, and no thread is started for a later one. *)
Theorem run_failing_fast_has_started_threads (create_backup : bool)
    (stamp : string) (pre : list string) (bad : string) (post : list string)
    (e : exn) :
  stat os dir = Some (Dir (pre ++ bad :: post)) ->
  all_classified os dir pre ->
  malformed_files os dir pre = [] ->
  PyStr.endswith bad ".fastresume" = true ->
  classify os (path_join os dir bad) = Malformed e ->
  (create_backup = true ->
   snd (QBTBatchMove.backup_folder os dir (archive_name os self stamp)) = None) ->
  snd (QBTBatchMove.run os self existing_path new_path target_os create_backup
         false stamp) = Some e /\
  started (fst (QBTBatchMove.run os self existing_path new_path target_os
                  create_backup false stamp))
  = map thread (valid_matching os dir existing_path pre).
Proof.
  intros Hs Hall Hnone Hsuf Hc Hb. apply archive_if in Hb.
  pose proof (stat_dir_isdir _ Hs) as Hd.
  destruct (loop_fail_fast os dir existing_path pre bad post e Hall Hnone
              Hsuf Hc) as [H1 H2].
  split.
  - rewrite (run_after_archive _ _ _ Hd Hb). cbn [snd negb].
    now rewrite (discover_listing _ _ _ _ _ Hs).
  - rewrite (run_started _ _ _ Hd Hb). cbn [negb].
    now rewrite (discover_listing _ _ _ _ _ Hs), H2.
Qed.


Lemma archive_is_run_event (t : list event) :
  forallb is_archive_event t = true -> forallb is_run_event t = true.
Proof.
  induction t as [|e t IH]; [reflexivity|]. simpl. intros H.
  apply andb_true_iff in H as [He Ht]. rewrite (IH Ht), andb_true_r.
  destruct e; try discriminate; reflexivity.
Qed.

Lemma dispatch_is_run_event (t : list event) :
  forallb is_discovery_event t = true ->
  forallb is_run_event
    (flat_map (QBTBatchMove.dispatch existing_path new_path target_os) t)
  = true.
Proof.
  induction t as [|e t IH]; [reflexivity|]. simpl. intros H.
  apply andb_true_iff in H as [He Ht]. rewrite forallb_app, (IH Ht), andb_true_r.
  destruct e; try discriminate; reflexivity.
Qed.

(** X12: [run] itself writes no record and changes none, however it ends:
    its events are log records, the calls on the archive and the starts of
    threads; the records change in the threads alone, which [run] does not
    wait for. *)
Theorem run_changes_no_record_itself (create_backup skip_bad_files : bool)
    (stamp : string) :
  forallb is_run_event
    (fst (QBTBatchMove.run os self existing_path new_path target_os
            create_backup skip_bad_files stamp)) = true.
Proof.
  destruct (isdir os dir) eqn:Hd.
  - destruct (snd (archive create_backup stamp)) as [e|] eqn:Hb.
    + unfold QBTBatchMove.run.
      assert (He : exists_ os dir = true).
      { unfold isdir in Hd. unfold exists_.
        destruct (stat os dir); [reflexivity | discriminate]. }
      rewrite He, Hd. cbn [negb orb]. cbv zeta. unfold archive_name in Hb.
      rewrite Hb. cbn [fst].
      apply archive_is_run_event, (archive_events create_backup stamp).
    + rewrite (run_after_archive _ _ _ Hd Hb). cbn [fst].
      rewrite forallb_app, (archive_is_run_event _ (archive_events _ _)).
      cbn [forallb is_run_event search_log andb].
      apply dispatch_is_run_event, discover_events.
  - unfold QBTBatchMove.run. rewrite Hd, orb_true_r. reflexivity.
Qed.

End RunMore.

(* ================================================================== *)
(** ** Further properties: what the setters keep and where they write *)
(* ================================================================== *)

Section SetterInvariants.

Variable convert_slashes : value -> string -> exn + value.
Variable os : os_env.

Lemma dict_get_set_some (k k' : string) (v : value) (d : dict) :
  dict_get k d <> None -> dict_get k (dict_set k' v d) <> None.
Proof.
  intros H. destruct (String.eqb_spec k k') as [->|Hne].
  - rewrite dict_get_set_eq. discriminate.
  - now rewrite dict_get_set_ne.
Qed.

Lemma has_paths_set (fp : string) (d : dict) (key : string) (v : value) :
  has_paths (mkFastResume fp (VDict d)) ->
  has_paths (mkFastResume fp (VDict (dict_set key v d))).
Proof.
  intros (d0 & a & b & E & Ha & Hb). simpl in E. injection E as <-.
  assert (H1 : dict_get "save_path" (dict_set key v d) <> None)
    by (apply dict_get_set_some; congruence).
  assert (H2 : dict_get "qBt-savePath" (dict_set key v d) <> None)
    by (apply dict_get_set_some; congruence).
  destruct (dict_get "save_path" (dict_set key v d)) as [a'|] eqn:E1;
    [|congruence].
  destruct (dict_get "qBt-savePath" (dict_set key v d)) as [b'|] eqn:E2;
    [|congruence].
  now exists (dict_set key v d), a', b'.
Qed.

Lemma pr_same {A : Type} (P : FastResume -> Prop) (m : M A) :
  (forall self, snd (m self) = self) -> preserves P m.
Proof.
  intros Hm self t r self' H HP. specialize (Hm self). rewrite H in Hm.
  simpl in Hm. now subst self'.
Qed.

Lemma pr_bind {A B : Type} (P : FastResume -> Prop) (m : M A) (k : A -> M B) :
  preserves P m -> (forall a, preserves P (k a)) -> preserves P (bind m k).
Proof.
  intros Hm Hk self t r self'. unfold bind.
  destruct (m self) as [[t1 [e|a]] s1] eqn:E1.
  - intros H HP. injection H as _ _ <-. exact (Hm _ _ _ _ E1 HP).
  - destruct (k a s1) as [[t2 r2] s2] eqn:E2. intros H HP.
    injection H as _ _ <-. exact (Hk a _ _ _ _ E2 (Hm _ _ _ _ E1 HP)).
Qed.

Lemma pr_when (P : FastResume -> Prop) (b : bool) (m : M unit) :
  preserves P m -> preserves P (when b m).
Proof. destruct b; [trivial | intros _; now apply pr_same]. Qed.

Lemma pr_save (P : FastResume -> Prop) (f : option string) :
  preserves P (save os f).
Proof.
  apply pr_same. intros self. rewrite save_eval.
  now destruct (write_error os _).
Qed.

Lemma pr_backup (P : FastResume -> Prop) (stamp : string) :
  preserves P (bf <- backup_filename stamp ;; save os (Some bf)).
Proof.
  apply pr_bind; [now apply pr_same | intros bf; apply pr_save].
Qed.

Lemma pr_set_item (key : string) (v : value) :
  preserves has_paths (set_item key v).
Proof.
  intros [fp d] t r self' H HP.
  unfold set_item, bind, get_data, lift, put_data, emit in H. simpl in H.
  destruct d as [s|b|z|l|d]; simpl in H; injection H as _ _ <-;
    try exact HP.
  now apply has_paths_set.
Qed.

Lemma pr_mapped_files (P : FastResume -> Prop) : preserves P mapped_files.
Proof.
  apply pr_same. intros [fp d]. unfold mapped_files, bind, get_data, lift, ret.
  simpl. destruct (py_contains "mapped_files" d) as [e|[|]]; simpl;
    [reflexivity| |reflexivity].
  destruct (py_getitem d "mapped_files"); reflexivity.
Qed.

Lemma pr_set_save_path path key target_os save_file create_backup stamp :
  preserves has_paths
    (set_save_path convert_slashes os path key target_os save_file
       create_backup stamp).
Proof.
  unfold set_save_path. destruct (negb (valid_key key)); [now apply pr_same|].
  apply pr_bind; [apply pr_when, pr_backup | intros _].
  apply pr_bind; [destruct target_os; now apply pr_same | intros p].
  apply pr_bind; [now apply pr_same | intros d].
  apply pr_bind; [now apply pr_same | intros old].
  apply pr_bind; [now apply pr_same | intros _].
  apply pr_bind; [apply pr_set_item | intros _].
  apply pr_when, pr_save.
Qed.

Lemma pr_set_save_paths path target_os save_file create_backup stamp :
  preserves has_paths
    (set_save_paths convert_slashes os path target_os save_file create_backup
       stamp).
Proof.
  unfold set_save_paths.
  apply pr_bind; [apply pr_when, pr_backup | intros _].
  apply pr_bind; [apply pr_set_save_path | intros _].
  apply pr_bind; [apply pr_set_save_path | intros _].
  apply pr_bind; [apply pr_mapped_files | intros mf].
  apply pr_bind; [|intros _; apply pr_when, pr_save].
  destruct mf as [v|]; [|now apply pr_same].
  destruct target_os as [t|]; [|now apply pr_same].
  apply pr_bind; [now apply pr_same | intros _].
  apply pr_bind; [apply pr_mapped_files | intros mf'].
  apply pr_bind; [now apply pr_same | intros items].
  apply pr_bind; [now apply pr_same | intros l].
  apply pr_set_item.
Qed.

(** X13: a record that is a dictionary with both save paths stays one
    through every call of a setter, whatever the arguments and however the
    call ends: no setter removes a key or replaces the dictionary, so the
    condition the construction checks holds for the life of the record. *)
Theorem setters_keep_the_required_keys (self : FastResume)
    (target_os : option string) (save_file create_backup : bool)
    (stamp : string) :
  has_paths self ->
  (forall path key,
     has_paths (snd (set_save_path convert_slashes os path key target_os
                       save_file create_backup stamp self))) /\
  (forall path,
     has_paths (snd (set_save_paths convert_slashes os path target_os
                       save_file create_backup stamp self))) /\
  (forall existing_path new_path,
     has_paths (snd (replace_paths convert_slashes os existing_path new_path
                       target_os save_file create_backup stamp self))).
Proof.
  intros HP. split; [|split].
  - intros path key.
    destruct (set_save_path _ _ _ _ _ _ _ _ self) as [[t r] s] eqn:E.
    exact (pr_set_save_path _ _ _ _ _ _ _ _ _ _ E HP).
  - intros path.
    destruct (set_save_paths _ _ _ _ _ _ _ self) as [[t r] s] eqn:E.
    exact (pr_set_save_paths _ _ _ _ _ _ _ _ _ E HP).
  - intros existing_path new_path.
    destruct (replace_paths _ _ _ _ _ _ _ _ self) as [[t r] s] eqn:E.
    revert E. unfold replace_paths.
    assert (Hpr : preserves has_paths
      (fp <- file_path ;;
       emit (Log INFO [Lit "Replacing Paths in FastResume "; Fmt (VStr fp);
                       Lit "..."]) ;;;
       sp <- save_path ;;
       new_save_path <- lift (py_replace sp existing_path new_path) ;;
       emit (Log DEBUG [Lit "Existing Save Path: "; Fmt (VStr existing_path);
                        Lit ", New Save Path: "; Fmt (VStr new_path);
                        Lit ", Replaced Save Path: ";
                        Fmt (VStr new_save_path)]) ;;;
       set_save_paths convert_slashes os (VStr new_save_path) target_os
         save_file create_backup stamp ;;;
       emit (Log INFO [Lit "FastResume ("; Fmt (VStr fp);
                       Lit ") Paths Replaced!"]))).
    { apply pr_bind; [now apply pr_same | intros fp].
      apply pr_bind; [now apply pr_same | intros _].
      apply pr_bind.
      { apply pr_same. intros [f d]. unfold save_path, bind, get_data, lift.
        simpl. now destruct (py_getitem d "save_path"). }
      intros sp. apply pr_bind; [now apply pr_same | intros n].
      apply pr_bind; [now apply pr_same | intros _].
      apply pr_bind; [apply pr_set_save_paths | intros _].
      now apply pr_same. }
    intros E. exact (Hpr _ _ _ _ E HP).
Qed.

End SetterInvariants.

Lemma setters_keep_the_required_keys_witness :
  has_paths movies /\ has_paths (snd movies_replaced).
Proof.
  assert (H : has_paths movies).
  { exists movies_dict, (VStr "/mnt/old/data/movies"),
      (VStr "/mnt/old/data/movies"). repeat split. }
  split; [exact H|].
  exact (proj2 (proj2 (setters_keep_the_required_keys convert_slashes_model
                         demo_os movies (Some "Windows") true true
                         "20240101120000" H)) "/mnt/old" "/mnt/new").
Defined.

Section SetterWrites.

Variable convert_slashes : value -> string -> exn + value.
Variable os : os_env.

Lemma wn_silent {A : Type} (m : M A) :
  (forall self, exists r d,
     m self = ([], r, mkFastResume (_file_path self) d)) ->
  writes_nothing m.
Proof.
  intros Hm self t r self' H. destruct (Hm self) as (r0 & d & E).
  rewrite E in H. injection H as <- _ <-. split; [reflexivity|].
  intros f d' [].
Qed.

Lemma wn_ret {A : Type} (a : A) : writes_nothing (ret a).
Proof. apply wn_silent. intros [fp d]. now exists (inr a), d. Qed.

Lemma wn_raise {A : Type} (e : exn) : writes_nothing (@raise A e).
Proof. apply wn_silent. intros [fp d]. now exists (inl e), d. Qed.

Lemma wn_lift {A : Type} (r : exn + A) : writes_nothing (lift r).
Proof. apply wn_silent. intros [fp d]. now exists r, d. Qed.

Lemma wn_get_data : writes_nothing get_data.
Proof. apply wn_silent. intros [fp d]. now exists (inr d), d. Qed.

Lemma wn_put_data (d : value) : writes_nothing (put_data d).
Proof. apply wn_silent. intros [fp d0]. now exists (inr tt), d. Qed.

Lemma wn_emit (e : event) :
  (forall f d, e <> BWrite f d) -> writes_nothing (emit e).
Proof.
  intros He self t r self' H. injection H as <- _ <-.
  split; [reflexivity|]. intros f d [E|[]]. now apply He in E.
Qed.

Lemma wn_bind {A B : Type} (m : M A) (k : A -> M B) :
  writes_nothing m -> (forall a, writes_nothing (k a)) ->
  writes_nothing (bind m k).
Proof.
  intros Hm Hk self t r self'. unfold bind.
  destruct (m self) as [[t1 [e|a]] s1] eqn:E1.
  - intros H. injection H as <- _ <-. exact (Hm _ _ _ _ E1).
  - destruct (k a s1) as [[t2 r2] s2] eqn:E2. intros H.
    injection H as <- _ <-.
    destruct (Hm _ _ _ _ E1) as [F1 W1]. destruct (Hk a _ _ _ _ E2) as [F2 W2].
    split; [congruence|]. intros f d Hin.
    apply in_app_or in Hin as [Hin|Hin]; [now apply (W1 f d) | now apply (W2 f d)].
Qed.

Lemma wn_set_item (key : string) (v : value) : writes_nothing (set_item key v).
Proof.
  unfold set_item.
  apply wn_bind; [apply wn_get_data | intros d].
  apply wn_bind; [apply wn_lift | intros d'].
  apply wn_bind; [apply wn_put_data | intros _].
  apply wn_emit. discriminate.
Qed.

Lemma wn_mapped_files : writes_nothing mapped_files.
Proof.
  unfold mapped_files.
  apply wn_bind; [apply wn_get_data | intros d].
  apply wn_bind; [apply wn_lift | intros [|]]; [|apply wn_ret].
  apply wn_bind; [apply wn_lift | intros v]. apply wn_ret.
Qed.

Lemma wn_set_save_path_plain path key target_os stamp :
  writes_nothing
    (set_save_path convert_slashes os path key target_os false false stamp).
Proof.
  unfold set_save_path. destruct (negb (valid_key key)); [apply wn_raise|].
  apply wn_bind; [apply wn_ret | intros _].
  apply wn_bind; [destruct target_os; [apply wn_lift | apply wn_ret] | intros p].
  apply wn_bind; [apply wn_get_data | intros d].
  apply wn_bind; [apply wn_lift | intros old].
  apply wn_bind; [apply wn_emit; discriminate | intros _].
  apply wn_bind; [apply wn_set_item | intros _]. apply wn_ret.
Qed.

Lemma pl_bind {A B : Type} (sf : bool) (m : M A) (k : A -> M B) :
  writes_nothing m -> (forall a, persists_last sf (k a)) ->
  persists_last sf (bind m k).
Proof.
  intros Hm Hk self t r self'. unfold bind.
  destruct (m self) as [[t1 [e|a]] s1] eqn:E1.
  - intros H. injection H as <- _ <-. destruct (Hm _ _ _ _ E1) as [F1 W1].
    split; [assumption|]. intros f d Hin. now apply W1 in Hin.
  - destruct (k a s1) as [[t2 r2] s2] eqn:E2. intros H.
    injection H as <- <- <-.
    destruct (Hm _ _ _ _ E1) as [F1 W1]. destruct (Hk a _ _ _ _ E2) as [F2 W2].
    split; [congruence|]. intros f d Hin.
    apply in_app_or in Hin as [Hin|Hin]; [now apply W1 in Hin|].
    rewrite <- F1. now apply (W2 f d).
Qed.

Lemma pl_when_save (sf : bool) : persists_last sf (when sf (save os None)).
Proof.
  intros self t r self' H. destruct sf; simpl in H.
  - rewrite save_eval in H.
    destruct (write_error os (_file_path self)); injection H as <- <- <-;
      (split; [reflexivity|]); intros f d Hin; simpl in Hin.
    + destruct Hin as [Hin|[]]. discriminate.
    + destruct Hin as [Hin|[Hin|[]]]; [discriminate|].
      injection Hin as <- <-. now repeat split.
  - injection H as <- _ <-. split; [reflexivity|]. intros f d [].
Qed.

Lemma pl_set_save_path_rest (sf : bool) path key target_os :
  persists_last sf
    (path <- match target_os with
             | Some t => lift (convert_slashes path t)
             | None => ret path
             end ;;
     d <- get_data ;;
     old <- lift (py_getitem d key) ;;
     emit (Log DEBUG [Lit "Setting "; Fmt (VStr key); Lit "... Old: "; Fmt old;
                      Lit ", New: "; Fmt path; Lit ", Target OS: ";
                      FmtOpt target_os]) ;;;
     set_item key path ;;;
     when sf (save os None)).
Proof.
  apply pl_bind; [destruct target_os; [apply wn_lift | apply wn_ret] | intros p].
  apply pl_bind; [apply wn_get_data | intros d].
  apply pl_bind; [apply wn_lift | intros old].
  apply pl_bind; [apply wn_emit; discriminate | intros _].
  apply pl_bind; [apply wn_set_item | intros _].
  apply pl_when_save.
Qed.

Lemma pl_set_save_paths_rest (sf : bool) path target_os stamp :
  persists_last sf
    (set_save_path convert_slashes os path "save_path" target_os false false
       stamp ;;;
     set_save_path convert_slashes os path "qBt-savePath" target_os false
       false stamp ;;;
     mf <- mapped_files ;;
     match mf, target_os with
     | Some _, Some t =>
         emit (Log DEBUG [Lit "Converting Slashes for mapped_files..."]) ;;;
         mf' <- mapped_files ;;
         items <- lift (match mf' with
                        | Some v => py_iter v
                        | None =>
                            inl (TypeError "'NoneType' object is not iterable")
                        end) ;;
         l <- lift (map_m (fun p => convert_slashes p t) items) ;;
         set_item "mapped_files" (VList l)
     | _, _ => ret tt
     end ;;;
     when sf (save os None)).
Proof.
  apply pl_bind; [apply wn_set_save_path_plain | intros _].
  apply pl_bind; [apply wn_set_save_path_plain | intros _].
  apply pl_bind; [apply wn_mapped_files | intros mf].
  apply pl_bind; [|intros _; apply pl_when_save].
  destruct mf as [v|]; [|apply wn_ret].
  destruct target_os as [t|]; [|apply wn_ret].
  apply wn_bind; [apply wn_emit; discriminate | intros _].
  apply wn_bind; [apply wn_mapped_files | intros mf'].
  apply wn_bind; [apply wn_lift | intros items].
  apply wn_bind; [apply wn_lift | intros l].
  apply wn_set_item.
Qed.

(** The backup, if asked for, and then calls that persist last. *)
Lemma backup_then_asked (sf cb : bool) (body : M unit) (stamp : string)
    (self : FastResume) :
  persists_last sf body ->
  writes_as_asked self stamp sf cb
    ((when cb (bf <- backup_filename stamp ;; save os (Some bf)) ;;; body)
       self).
Proof.
  intros Hb. unfold bind at 1. destruct cb; simpl when.
  - rewrite backup_eval, save_eval.
    destruct (write_error os (backup_name self stamp)).
    + intros f d [H|[]]. discriminate.
    + destruct (body self) as [[t2 r] s2] eqn:E.
      destruct (Hb _ _ _ _ E) as [_ W]. intros f d. cbn [fst snd app].
      intros [H|[H|H]]; [discriminate | |].
      * injection H as <- <-. left. now repeat split.
      * apply W in H as (-> & -> & ->). right. now repeat split.
  - unfold ret. destruct (body self) as [[t2 r] s2] eqn:E.
    destruct (Hb _ _ _ _ E) as [_ W]. intros f d. cbn [fst snd app].
    intros H. apply W in H as (-> & -> & ->). right. now repeat split.
Qed.

(** X14: a setter writes files as it is asked and no others: every write
    it has completed went to the backup, when a backup was asked for, and
    holds the record as it was when the call began, or to the record's own
    file, when persistence was asked for, and holds the record as the call
    leaves it; a call asked for neither has written no file. *)
Theorem setters_write_as_asked (self : FastResume) (stamp : string)
    (target_os : option string) (save_file create_backup : bool) :
  (forall path key,
     writes_as_asked self stamp save_file create_backup
       (set_save_path convert_slashes os path key target_os save_file
          create_backup stamp self)) /\
  (forall path,
     writes_as_asked self stamp save_file create_backup
       (set_save_paths convert_slashes os path target_os save_file
          create_backup stamp self)) /\
  (forall existing_path new_path,
     writes_as_asked self stamp save_file create_backup
       (replace_paths convert_slashes os existing_path new_path target_os
          save_file create_backup stamp self)).
Proof.
  assert (Hset : forall path,
     writes_as_asked self stamp save_file create_backup
       (set_save_paths convert_slashes os path target_os save_file
          create_backup stamp self)).
  { intros path. unfold set_save_paths.
    apply backup_then_asked, pl_set_save_paths_rest. }
  split; [|split; [exact Hset|]].
  - intros path key. unfold set_save_path.
    destruct (negb (valid_key key)); [intros f d []|].
    apply backup_then_asked, pl_set_save_path_rest.
  - intros existing_path new_path.
    assert (Hfail : (forall sp, py_getitem (_data self) "save_path"
                                <> inr (VStr sp)) ->
      writes_as_asked self stamp save_file create_backup
        (replace_paths convert_slashes os existing_path new_path target_os
           save_file create_backup stamp self)).
    { intros Hn.
      destruct (replace_paths_fails convert_slashes os existing_path new_path
                  target_os save_file create_backup stamp self Hn) as [e' ->].
      intros f d [H|[]]. discriminate. }
    destruct (py_getitem (_data self) "save_path") as [e|v] eqn:E;
      [apply Hfail; congruence|].
    destruct v as [sp| | | |]; try (apply Hfail; congruence).
    rewrite (replace_paths_eval _ _ _ _ _ _ _ _ _ _ E).
    specialize (Hset (VStr (PyStr.replace sp existing_path new_path))).
    destruct (set_save_paths _ _ _ _ _ _ _ self) as [[t r] s].
    unfold delegated, writes_as_asked in *. cbn [fst snd] in *.
    intros f d [H|[H|H]]; [discriminate | discriminate |].
    apply in_app_or in H as [H|H]; [now apply Hset|].
    destruct r as [e|u]; simpl in H; [destruct H|].
    destruct H as [H|[]]. discriminate.
Qed.

(** X15: a call of [set_save_path] that returns has changed the one key it
    was given, to the translated path, and no other: the other save path
    keeps its value, so the two may differ afterwards. Log records aside,
    its effects are the backup of the prior state if asked for, the
    assignment, and the write of the new state if asked for, in this
    order. *)
Theorem set_save_path_changes_one_key path key target_os save_file
    create_backup stamp self t self' :
  set_save_path convert_slashes os path key target_os save_file create_backup
    stamp self = (t, inr tt, self') ->
  exists d p,
    _data self = VDict d /\
    translated convert_slashes target_os path = inr p /\
    self' = mkFastResume (_file_path self) (VDict (dict_set key p d)) /\
    dict_get key (dict_set key p d) = Some p /\
    (forall k, k <> key -> dict_get k (dict_set key p d) = dict_get k d) /\
    effects t
    = effects (backup_part create_backup (backup_name self stamp) (VDict d))
      ++ SetItem key p
      :: effects (persist_part save_file (_file_path self)
                    (VDict (dict_set key p d))).
Proof.
  unfold set_save_path. destruct (negb (valid_key key)); [discriminate|].
  intros H.
  apply bind_inv in H as (t1 & [] & s1 & t1' & H1 & H & ->).
  apply when_backup_inv in H1 as (-> & -> & _).
  apply bind_inv in H as (t2 & p & s2 & t2' & H2 & H & ->).
  assert (Hp : translated convert_slashes target_os path = inr p
               /\ s2 = self /\ t2 = []).
  { destruct target_os; injection H2 as <- E <-; simpl; repeat split;
      congruence. }
  destruct Hp as (Hp & -> & ->).
  apply bind_inv in H as (t3 & d0 & s3 & t3' & H3 & H & ->).
  injection H3 as <- <- <-.
  apply bind_inv in H as (t4 & old & s4 & t4' & H4 & H & ->).
  unfold lift in H4. injection H4 as <- H4 <-.
  destruct (_data self) as [s|b|z|l|d] eqn:Ed; try discriminate.
  apply bind_inv in H as (t5 & [] & s5 & t5' & H5 & H & ->).
  injection H5 as <- <-.
  apply bind_inv in H as (t6 & [] & s6 & t6' & H6 & H & ->).
  rewrite (set_item_eval _ _ _ d Ed) in H6. injection H6 as <- <-.
  apply when_save_inv in H as (-> & -> & _).
  exists d, p. split; [reflexivity|]. split; [assumption|].
  split; [reflexivity|]. split; [apply dict_get_set_eq|].
  split; [intros k Hk; now apply dict_get_set_ne|].
  unfold effects. rewrite !filter_app. cbn [_file_path _data].
  destruct create_backup, save_file; reflexivity.
Qed.

End SetterWrites.

Lemma setters_write_as_asked_witness :
  writes_as_asked movies "20240101120000" true true movies_replaced /\
  In (BWrite "/bt/movies.fastresume.20240101120000.bkup" movies_data)
     (fst (fst movies_replaced)) /\
  In (BWrite "/bt/movies.fastresume" (_data (snd movies_replaced)))
     (fst (fst movies_replaced)) /\
  effects
    (fst (fst (FastResume.replace_paths convert_slashes_model demo_os
                 "/mnt/old" "/mnt/new" None false false "20240101120000"
                 movies)))
  = [SetItem "save_path" (VStr "/mnt/new/data/movies");
     SetItem "qBt-savePath" (VStr "/mnt/new/data/movies")].
Proof.
  split.
  - apply (setters_write_as_asked convert_slashes_model demo_os movies
             "20240101120000" (Some "Windows") true true).
  - split; [vm_compute; tauto|]. split; [vm_compute; tauto | reflexivity].
Defined.

Lemma set_save_path_changes_one_key_witness :
  exists t self',
    set_save_path convert_slashes_model demo_os (VStr "/mnt/new") "save_path"
      None true false "20240101120000" movies = (t, inr tt, self') /\
    FastResume.save_path self' = ([], inr (VStr "/mnt/new"), self') /\
    FastResume.qbt_save_path self'
      = ([], inr (VStr "/mnt/old/data/movies"), self') /\
    exists d p,
      _data movies = VDict d /\
      translated convert_slashes_model None (VStr "/mnt/new") = inr p /\
      self' = mkFastResume (_file_path movies) (VDict (dict_set "save_path" p d)) /\
      dict_get "save_path" (dict_set "save_path" p d) = Some p /\
      (forall k, k <> "save_path" ->
                 dict_get k (dict_set "save_path" p d) = dict_get k d) /\
      effects t
      = effects (backup_part false (backup_name movies "20240101120000")
                   (VDict d))
        ++ SetItem "save_path" p
        :: effects (persist_part true (_file_path movies)
                      (VDict (dict_set "save_path" p d))).
Proof.
  eexists. eexists. split; [reflexivity|]. split; [reflexivity|].
  split; [reflexivity|].
  apply (set_save_path_changes_one_key convert_slashes_model demo_os
           (VStr "/mnt/new") "save_path" None true false "20240101120000").
  reflexivity.
Defined.

(* ================================================================== *)
(** ** Further properties: replacement, repetition and failure *)
(* ================================================================== *)

Section SetterMore.

Variable convert_slashes : value -> string -> exn + value.
Variable os : os_env.

Lemma contains_empty (s : string) : PyStr.contains s "" = true.
Proof. destruct s; reflexivity. Qed.

Lemma replace_none (s old new : string) :
  PyStr.contains s old = false -> PyStr.replace s old new = s.
Proof.
  intros H. unfold PyStr.replace. destruct old as [|c o] eqn:E.
  - now rewrite contains_empty in H.
  - rewrite <- E in *. apply replace_scan_none; [congruence | assumption].
Qed.

Lemma set_save_paths_sets_both path target_os save_file create_backup stamp
    self t self' :
  set_save_paths convert_slashes os path target_os save_file create_backup
    stamp self = (t, inr tt, self') ->
  exists p,
    translated convert_slashes target_os path = inr p /\
    save_path self' = ([], inr p, self') /\
    qbt_save_path self' = ([], inr p, self').
Proof.
  intros H.
  apply set_save_paths_inv in H
    as (d & p & o1 & o2 & tm & d3 & Ed & Ep & _ & _ & Hm & -> & _).
  exists p. split; [assumption|].
  unfold save_path, qbt_save_path, bind, get_data, lift. simpl.
  rewrite !(mapped_step_frame _ _ _ _ _ _ Hm) by discriminate.
  rewrite dict_get_set_eq.
  rewrite dict_get_set_ne by discriminate. rewrite dict_get_set_eq.
  split; reflexivity.
Qed.

(** X16: [replace_paths] works from the save path alone: when
    [existing_path] does not occur in it, a call that returns has still
    assigned both fields, and both hold the old save path (translated when
    a target is given); what the client save path held before, were it the
    one that matched, is gone. *)
Theorem replace_paths_without_occurrence existing_path new_path target_os
    save_file create_backup stamp self sp t self' :
  py_getitem (_data self) "save_path" = inr (VStr sp) ->
  PyStr.contains sp existing_path = false ->
  replace_paths convert_slashes os existing_path new_path target_os save_file
    create_backup stamp self = (t, inr tt, self') ->
  exists p,
    translated convert_slashes target_os (VStr sp) = inr p /\
    save_path self' = ([], inr p, self') /\
    qbt_save_path self' = ([], inr p, self').
Proof.
  intros E Hc H. rewrite (replace_paths_eval _ _ _ _ _ _ _ _ _ _ E) in H.
  rewrite (replace_none _ _ _ Hc) in H. unfold delegated in H.
  destruct (set_save_paths _ _ _ _ _ _ _ self) as [[u r] s] eqn:Es.
  simpl in H. injection H as _ -> ->.
  exact (set_save_paths_sets_both _ _ _ _ _ _ _ _ Es).
Qed.

(** X17: on a record whose save path is no text, [replace_paths] raises
    right after its first log record: [KeyError] when the key is absent,
    [TypeError] on bytes, [AttributeError] on a number, a list or a
    dictionary; no backup is made, no field changed, nothing written. *)
Theorem replace_paths_needs_a_text_save_path existing_path new_path target_os
    save_file create_backup stamp (fp : string) (d : dict) :
  let self := mkFastResume fp (VDict d) in
  let begun := Log INFO [Lit "Replacing Paths in FastResume ";
                         Fmt (VStr fp); Lit "..."] in
  match dict_get "save_path" d with
  | Some (VStr _) => True
  | None =>
      replace_paths convert_slashes os existing_path new_path target_os
        save_file create_backup stamp self
      = ([begun], inl (KeyError "save_path"), self)
  | Some (VBytes _) =>
      replace_paths convert_slashes os existing_path new_path target_os
        save_file create_backup stamp self
      = ([begun],
         inl (TypeError "a bytes-like object is required, not 'str'"), self)
  | Some _ =>
      replace_paths convert_slashes os existing_path new_path target_os
        save_file create_backup stamp self
      = ([begun], inl (AttributeError "replace"), self)
  end.
Proof.
  unfold replace_paths, bind, file_path, emit, save_path, get_data, lift.
  simpl. destruct (dict_get "save_path" d) as [[| | | |]|]; simpl;
    trivial.
Qed.

Lemma dict_set_set (k : string) (v v' : value) (d : dict) :
  dict_set k v (dict_set k v' d) = dict_set k v d.
Proof.
  induction d as [|[k0 v0] d IH]; simpl.
  - now rewrite String.eqb_refl.
  - destruct (String.eqb k k0) eqn:E; simpl; rewrite E; [reflexivity|].
    now rewrite IH.
Qed.

Lemma dict_set_comm (k k' : string) (v v' : value) (d : dict) :
  k <> k' -> dict_get k d <> None ->
  dict_set k v (dict_set k' v' d) = dict_set k' v' (dict_set k v d).
Proof.
  intros Hne. induction d as [|[k0 v0] d IH]; simpl; [congruence|].
  destruct (String.eqb_spec k k0) as [->|Hk].
  - intros _. destruct (String.eqb_spec k' k0) as [->|Hk']; [congruence|].
    simpl. rewrite String.eqb_refl.
    apply String.eqb_neq in Hk'. now rewrite Hk'.
  - intros Hin. destruct (String.eqb_spec k' k0) as [->|Hk']; simpl.
    + apply String.eqb_neq in Hk. rewrite Hk, String.eqb_refl. reflexivity.
    + apply String.eqb_neq in Hk, Hk'. rewrite Hk, Hk'.
      now rewrite IH.
Qed.

(** X18: without a target, the last call of [set_save_paths] wins: a call
    with [q] on the record a call with [p] has left gives the record a
    call with [q] alone gives, the mapped files and all other fields as
    they were. *)
Theorem set_save_paths_last_call_wins (p q : value) (self s1 s2 s3 : FastResume)
    (t1 t2 t3 : list event) (sf1 cb1 sf2 cb2 sf3 cb3 : bool)
    (st1 st2 st3 : string) :
  set_save_paths convert_slashes os p None sf1 cb1 st1 self = (t1, inr tt, s1) ->
  set_save_paths convert_slashes os q None sf2 cb2 st2 s1 = (t2, inr tt, s2) ->
  set_save_paths convert_slashes os q None sf3 cb3 st3 self = (t3, inr tt, s3) ->
  s2 = s3.
Proof.
  intros H1 H2 H3.
  apply set_save_paths_inv in H1
    as (d & p1 & a1 & b1 & tm1 & d1 & Ed & Ep1 & Ea1 & _ & Hm1 & -> & _).
  apply set_save_paths_inv in H3
    as (d' & p3 & a3 & b3 & tm3 & d3 & Ed' & Ep3 & _ & _ & Hm3 & -> & _).
  rewrite Ed in Ed'. injection Ed' as <-.
  apply set_save_paths_inv in H2
    as (d0 & p2 & a2 & b2 & tm2 & d2 & Ed0 & Ep2 & _ & _ & Hm2 & -> & _).
  simpl in Ed0, Ep1, Ep2, Ep3. injection Ed0 as <-.
  injection Ep1 as <-. injection Ep2 as <-. injection Ep3 as <-.
  assert (K : forall d t d', mapped_step convert_slashes None d t d' -> d' = d).
  { intros x t x' [Hk| tg mf items l Et _ _ _]; [reflexivity | discriminate]. }
  apply K in Hm1, Hm2, Hm3. subst d1 d2 d3. simpl. do 2 f_equal.
  rewrite (dict_set_comm "save_path" "qBt-savePath") by
    (try discriminate; rewrite dict_get_set_eq; discriminate).
  now rewrite !dict_set_set.
Qed.

Lemma bind_fail {A B : Type} (m : M A) (k : A -> M B) self t e s :
  m self = (t, inl e, s) -> bind m k self = (t, inl e, s).
Proof. intros E. unfold bind. now rewrite E. Qed.

(** X19: [set_save_paths] does not undo what it has done when it fails:
    when the translation of a mapped file raises, the call raises that
    exception with both save paths already changed in the record, the
    mapped files as they were, and nothing persisted; if a backup was asked
    for, it has been written, and holds the record as it was. *)
Theorem set_save_paths_keeps_its_changes_on_failure path (tg : string)
    save_file create_backup stamp self d o1 o2 p mf items e :
  _data self = VDict d ->
  dict_get "save_path" d = Some o1 ->
  dict_get "qBt-savePath" d = Some o2 ->
  convert_slashes path tg = inr p ->
  dict_get "mapped_files" d = Some mf ->
  py_iter mf = inr items ->
  map_m (fun x => convert_slashes x tg) items = inl e ->
  (create_backup = true -> write_error os (backup_name self stamp) = None) ->
  set_save_paths convert_slashes os path (Some tg) save_file create_backup
    stamp self
  = (backup_part create_backup (backup_name self stamp) (VDict d)
     ++ [set_log "save_path" o1 p (Some tg); SetItem "save_path" p;
         set_log "qBt-savePath" o2 p (Some tg); SetItem "qBt-savePath" p;
         mapped_log],
     inl e,
     mkFastResume (_file_path self)
       (VDict (dict_set "qBt-savePath" p (dict_set "save_path" p d)))).
Proof.
  intros Ed E1 E2 Ep Emf Ei Em Hb.
  set (d1 := dict_set "save_path" p d).
  set (d2 := dict_set "qBt-savePath" p d1).
  set (s1 := mkFastResume (_file_path self) (VDict d1)).
  set (s2 := mkFastResume (_file_path self) (VDict d2)).
  assert (Emf2 : dict_get "mapped_files" d2 = Some mf).
  { unfold d2, d1. now rewrite !dict_get_set_ne by discriminate. }
  unfold set_save_paths. rewrite <- Ed.
  apply (bind_intro _ _ self _ tt self); [now apply when_backup_eval|].
  apply (bind_intro _ _ self
           [set_log "save_path" o1 p (Some tg); SetItem "save_path" p] tt s1).
  { rewrite set_save_path_plain by reflexivity. simpl translated.
    rewrite Ep, Ed. simpl. now rewrite E1. }
  apply (bind_intro _ _ s1
           [set_log "qBt-savePath" o2 p (Some tg); SetItem "qBt-savePath" p]
           tt s2).
  { rewrite set_save_path_plain by reflexivity. simpl translated.
    rewrite Ep. simpl. unfold d1. rewrite dict_get_set_ne by discriminate.
    now rewrite E2. }
  apply (bind_intro _ _ s2 [] (dict_get "mapped_files" d2) s2);
    [now apply mapped_files_eval|].
  rewrite Emf2. apply bind_fail.
  apply (bind_intro _ _ s2 [mapped_log] tt s2); [reflexivity|].
  apply (bind_intro _ _ s2 [] (Some mf) s2).
  { rewrite (mapped_files_eval s2 d2) by reflexivity. now rewrite Emf2. }
  apply (bind_intro _ _ s2 [] items s2); [unfold lift; now rewrite Ei|].
  apply bind_fail. unfold lift. now rewrite Em.
Qed.

Lemma append_inv_tail (a b x : string) : a +++ x = b +++ x -> a = b.
Proof.
  revert b. induction a as [|c a IH]; intros [|c' b]; simpl; intros H.
  - reflexivity.
  - apply (f_equal String.length) in H. simpl in H.
    rewrite length_append in H. lia.
  - apply (f_equal String.length) in H. simpl in H.
    rewrite length_append in H. lia.
  - injection H as -> H. now rewrite (IH b H).
Qed.

(** X20: the name of a backup tells the time stamp: backups of a record
    taken at different time stamps are different files, backups taken at
    the same time stamp are the same file (the later overwrites the
    earlier), and no backup is the record's own file. *)
Theorem backup_names_follow_the_stamp (self : FastResume)
    (stamp1 stamp2 : string) :
  (backup_filename stamp1 self = backup_filename stamp2 self <->
   stamp1 = stamp2) /\
  backup_filename stamp1 self
    <> ([], inr (_file_path self), self).
Proof.
  unfold backup_filename, bind, file_path, ret. simpl. split.
  - split; [|now intros ->]. intros H. injection H as H.
    apply append_inv_head in H. injection H as H.
    now apply append_inv_tail in H.
  - intros H. injection H as H. now apply append_neq_self in H.
Qed.

End SetterMore.

(* ================================================================== *)
(** ** Further properties: construction *)
(* ================================================================== *)

Section InitMore.

Variable os : os_env.

(** X21: the construction raises [FileNotFoundError], with the resolved
    path and before any log record, when nothing or a directory is at the
    resolved path; on a file that [bencode.bread] cannot read or decode it
    raises the exception of [bread] as it is, after the one log record of
    loading. *)
Theorem init_raises_for_missing_or_undecodable (file_path : string) :
  (stat os (realpath os file_path) = None \/
   (exists l, stat os (realpath os file_path) = Some (Dir l)) ->
   FastResume.init os file_path
   = ([], inl (FileNotFoundError (realpath os file_path)))) /\
  (forall e,
     stat os (realpath os file_path) = Some (File (inl e)) ->
     FastResume.init os file_path
     = ([load_log (realpath os file_path)], inl e)).
Proof.
  unfold FastResume.init, exists_, isfile, bread_at. split.
  - intros [H | [l H]]; rewrite H; reflexivity.
  - intros e H. rewrite H. reflexivity.
Qed.

(** X22: the test for the required keys is Python's [in], which on a value
    that is no dictionary is not a test for keys: a file that decodes to a
    number or to bytes makes the construction raise [TypeError]; a file
    that decodes to a text is taken as a record when both key names occur
    in the text, and a list when both names are among its items; otherwise
    the construction raises [ValueError]. *)
Theorem init_on_a_value_that_is_no_dictionary (file_path : string) (v : value) :
  stat os (realpath os file_path) = Some (File (inr v)) ->
  let fp := realpath os file_path in
  let loaded := [load_log fp] in
  let complete :=
    Log DEBUG [Lit "Fast Resume ("; Fmt (VStr fp); Lit ") Init Complete."] in
  match v with
  | VInt _ =>
      FastResume.init os file_path
      = (loaded, inl (TypeError "argument of type 'int' is not iterable"))
  | VBytes _ =>
      FastResume.init os file_path
      = (loaded, inl (TypeError "a bytes-like object is required, not 'str'"))
  | VStr s =>
      FastResume.init os file_path
      = if PyStr.contains s "save_path" && PyStr.contains s "qBt-savePath"
        then (loaded ++ [complete], inr (mkFastResume fp v))
        else (loaded, inl missing_keys)
  | VList l =>
      FastResume.init os file_path
      = if existsb (fun x => is_str x "save_path") l
           && existsb (fun x => is_str x "qBt-savePath") l
        then (loaded ++ [complete], inr (mkFastResume fp v))
        else (loaded, inl missing_keys)
  | VDict _ => True
  end.
Proof.
  intros H. unfold FastResume.init, exists_, isfile, bread_at. rewrite H.
  cbn [negb orb]. destruct v as [s|b|z|l|d]; cbn [py_contains rbind];
    trivial.
  - destruct (PyStr.contains s "save_path"); cbn [negb andb];
      [|reflexivity].
    destruct (PyStr.contains s "qBt-savePath"); reflexivity.
  - destruct (existsb (fun x => is_str x "save_path") l); cbn [negb andb];
      [|reflexivity].
    destruct (existsb (fun x => is_str x "qBt-savePath") l); reflexivity.
Qed.

Lemma init_inv (file_path : string) (t : list event) (fr : FastResume) :
  FastResume.init os file_path = (t, inr fr) ->
  _file_path fr = realpath os file_path /\
  bread_at os (realpath os file_path) = inr (_data fr).
Proof.
  unfold FastResume.init.
  destruct (negb (exists_ os _) || negb (isfile os _)); [discriminate|].
  destruct (bread_at os (realpath os file_path)) as [e|data]; [discriminate|].
  destruct (rbind _ _) as [e|[|]]; try discriminate.
  intros H. injection H as _ <-. split; reflexivity.
Qed.

(** X23: a record saved as it was constructed writes back what was read:
    [save()] on the record the construction returns writes the value
    [bencode.bread] gave, whole and unchanged, to the resolved path of the
    file, and leaves the record as it is. *)
Theorem a_loaded_record_saves_what_was_read (file_path : string)
    (t : list event) (fr : FastResume) :
  FastResume.init os file_path = (t, inr fr) ->
  write_error os (realpath os file_path) = None ->
  exists v,
    bread_at os (realpath os file_path) = inr v /\
    FastResume.save os None fr
    = ([save_log (realpath os file_path);
        BWrite (realpath os file_path) v],
       inr tt, fr).
Proof.
  intros Hi Hw. destruct (init_inv _ _ _ Hi) as [Hf Hb].
  exists (_data fr). split; [assumption|].
  rewrite save_eval. cbv zeta. rewrite Hf, Hw. reflexivity.
Qed.

End InitMore.

Lemma init_raises_for_missing_or_undecodable_witness :
  stat demo_os (realpath demo_os "/bt/gone.fastresume") = None /\
  FastResume.init demo_os "/bt/gone.fastresume"
    = ([], inl (FileNotFoundError "/bt/gone.fastresume")) /\
  stat demo_os (realpath demo_os "/bt/broken.fastresume")
    = Some (File (inl (BencodeDecodeError "not a valid bencoded string"))) /\
  FastResume.init demo_os "/bt/broken.fastresume"
    = ([load_log "/bt/broken.fastresume"],
       inl (BencodeDecodeError "not a valid bencoded string")).
Proof.
  split; [reflexivity|]. split.
  - apply (proj1 (init_raises_for_missing_or_undecodable demo_os
                    "/bt/gone.fastresume")). now left.
  - split; [reflexivity|].
    apply (proj2 (init_raises_for_missing_or_undecodable demo_os
                    "/bt/broken.fastresume")). reflexivity.
Defined.

Lemma init_on_a_value_that_is_no_dictionary_witness :
  stat odd_os (realpath odd_os "/odd/int.fastresume")
    = Some (File (inr (VInt 5))) /\
  FastResume.init odd_os "/odd/int.fastresume"
    = ([load_log "/odd/int.fastresume"],
       inl (TypeError "argument of type 'int' is not iterable")).
Proof.
  split; [reflexivity|].
  exact (init_on_a_value_that_is_no_dictionary odd_os "/odd/int.fastresume"
           (VInt 5) eq_refl).
Defined.

Lemma a_loaded_record_saves_what_was_read_witness :
  exists t,
    FastResume.init demo_os "/bt/movies.fastresume" = (t, inr movies) /\
    write_error demo_os (realpath demo_os "/bt/movies.fastresume") = None /\
    exists v,
      bread_at demo_os (realpath demo_os "/bt/movies.fastresume") = inr v /\
      FastResume.save demo_os None movies
      = ([save_log (realpath demo_os "/bt/movies.fastresume");
          BWrite (realpath demo_os "/bt/movies.fastresume") v],
         inr tt, movies).
Proof.
  eexists. split; [reflexivity|]. split; [reflexivity|].
  eapply (a_loaded_record_saves_what_was_read demo_os); reflexivity.
Defined.

(* ================================================================== *)
(** ** The further properties at work on the examples *)
(* ================================================================== *)

Lemma run_starts_a_thread_per_discovered_record_witness :
  isdir demo_os "/bt" = true /\
  snd (QBTBatchMove.run demo_os (mkQBTBatchMove "/bt") "/mnt/old" "/mnt/new"
         (Some "Linux") false true "20240101120000") = None /\
  started (fst (QBTBatchMove.run demo_os (mkQBTBatchMove "/bt") "/mnt/old"
                  "/mnt/new" (Some "Linux") false true "20240101120000"))
  = [ThreadStart movies "/mnt/old" "/mnt/new" (Some "Linux") true false].
Proof.
  split; [reflexivity|].
  destruct (run_starts_a_thread_per_discovered_record demo_os
              (mkQBTBatchMove "/bt") "/mnt/old" "/mnt/new" (Some "Linux")
              false true "20240101120000" eq_refl) as [H1 H2];
    [discriminate|].
  split; [rewrite H1 | rewrite H2]; reflexivity.
Defined.


Lemma demo_prefix_classified :
  all_classified demo_os "/bt" ["movies.fastresume"; "notes.txt"].
Proof.
  intros file H. simpl in H. destruct H as [<-|[]]. discriminate.
Defined.

Lemma run_failing_fast_has_started_threads_witness :
  stat demo_os "/bt"
    = Some (Dir (["movies.fastresume"; "notes.txt"]
                   ++ "nokey.fastresume"
                   :: ["music.fastresume"; "broken.fastresume"])) /\
  malformed_files demo_os "/bt" ["movies.fastresume"; "notes.txt"] = [] /\
  classify demo_os (path_join demo_os "/bt" "nokey.fastresume")
    = Malformed missing_keys /\
  snd (QBTBatchMove.run demo_os (mkQBTBatchMove "/bt") "/" "/x/" None false
         false "20240101120000") = Some missing_keys /\
  started (fst (QBTBatchMove.run demo_os (mkQBTBatchMove "/bt") "/" "/x/" None
                  false false "20240101120000"))
  = map (batch_thread "/" "/x/" None)
      (valid_matching demo_os "/bt" "/" ["movies.fastresume"; "notes.txt"]).
Proof.
  split; [reflexivity|]. split; [reflexivity|]. split; [reflexivity|].
  apply (run_failing_fast_has_started_threads demo_os (mkQBTBatchMove "/bt")
           "/" "/x/" None false "20240101120000"
           ["movies.fastresume"; "notes.txt"] "nokey.fastresume"
           ["music.fastresume"; "broken.fastresume"] missing_keys eq_refl
           demo_prefix_classified eq_refl eq_refl eq_refl).
  discriminate.
Defined.


Lemma replace_paths_without_occurrence_witness :
  py_getitem (_data moved) "save_path" = inr (VStr "/srv/a") /\
  PyStr.contains "/srv/a" "/mnt/old" = false /\
  QBTBatchMove.relevant "/mnt/old" moved = inr true /\
  exists t self',
    FastResume.replace_paths convert_slashes_model demo_os "/mnt/old"
      "/mnt/new" None true false "20240101120000" moved = (t, inr tt, self') /\
    FastResume.save_path self' = ([], inr (VStr "/srv/a"), self') /\
    FastResume.qbt_save_path self' = ([], inr (VStr "/srv/a"), self').
Proof.
  split; [reflexivity|]. split; [reflexivity|]. split; [reflexivity|].
  eexists. eexists. split; [reflexivity|].
  destruct (replace_paths_without_occurrence convert_slashes_model demo_os
              "/mnt/old" "/mnt/new" None true false "20240101120000" moved
              "/srv/a" _ _ eq_refl eq_refl eq_refl) as (p & Hp & H1 & H2).
  injection Hp as <-. split; assumption.
Defined.

Lemma set_save_paths_last_call_wins_witness :
  exists t1 s1 t2 s2 t3 s3,
    FastResume.set_save_paths convert_slashes_model demo_os (VStr "/a") None
      false false "" movies = (t1, inr tt, s1) /\
    FastResume.set_save_paths convert_slashes_model demo_os (VStr "/b") None
      false false "" s1 = (t2, inr tt, s2) /\
    FastResume.set_save_paths convert_slashes_model demo_os (VStr "/b") None
      false false "" movies = (t3, inr tt, s3) /\
    s2 = s3.
Proof.
  do 6 eexists. split; [reflexivity|]. split; [reflexivity|].
  split; [reflexivity|].
  eapply (set_save_paths_last_call_wins convert_slashes_model demo_os
            (VStr "/a") (VStr "/b") movies _ _ _ _ _ _
            false false false false false false "" "" ""); reflexivity.
Defined.

Lemma set_save_paths_keeps_its_changes_on_failure_witness :
  exists d,
    _data mixed = VDict d /\
    dict_get "mapped_files" d = Some (VList [VStr "a/b"; VInt 3]) /\
    map_m (fun x => convert_slashes_model x "Windows") [VStr "a/b"; VInt 3]
      = inl (AttributeError "replace") /\
    write_error demo_os (backup_name mixed "20240101120000") = None /\
    FastResume.set_save_paths convert_slashes_model demo_os (VStr "/mnt/new/m")
      (Some "Windows") true true "20240101120000" mixed
    = ([save_log "/bt/mixed.fastresume.20240101120000.bkup";
        BWrite "/bt/mixed.fastresume.20240101120000.bkup" (VDict d);
        set_log "save_path" (VStr "/mnt/old/m") (VStr "\mnt\new\m")
          (Some "Windows");
        SetItem "save_path" (VStr "\mnt\new\m");
        set_log "qBt-savePath" (VStr "/mnt/old/m") (VStr "\mnt\new\m")
          (Some "Windows");
        SetItem "qBt-savePath" (VStr "\mnt\new\m");
        mapped_log],
       inl (AttributeError "replace"),
       mkFastResume (_file_path mixed)
         (VDict (dict_set "qBt-savePath" (VStr "\mnt\new\m")
                   (dict_set "save_path" (VStr "\mnt\new\m") d)))).
Proof.
  eexists. split; [reflexivity|]. split; [reflexivity|].
  split; [reflexivity|]. split; [reflexivity|].
  apply (set_save_paths_keeps_its_changes_on_failure convert_slashes_model
           demo_os (VStr "/mnt/new/m") "Windows" true true "20240101120000"
           mixed _ (VStr "/mnt/old/m") (VStr "/mnt/old/m") (VStr "\mnt\new\m")
           (VList [VStr "a/b"; VInt 3]) [VStr "a/b"; VInt 3]
           (AttributeError "replace")); reflexivity.
Defined.

Lemma run_changes_no_record_itself_witness :
  forallb is_run_event
    (fst (QBTBatchMove.run demo_os (mkQBTBatchMove "/bt") "/mnt/old" "/mnt/new"
            None true true "20240101120000")) = true /\
  effects (fst (QBTBatchMove.run demo_os (mkQBTBatchMove "/bt") "/mnt/old"
                  "/mnt/new" None false true "20240101120000"))
  = [ThreadStart movies "/mnt/old" "/mnt/new" None true false].
Proof.
  split; [apply run_changes_no_record_itself | reflexivity].
Defined.

Lemma replace_paths_needs_a_text_save_path_witness :
  FastResume.replace_paths convert_slashes_model demo_os "/mnt/old" "/mnt/new"
    None true true "20240101120000"
    (mkFastResume "/num/num.fastresume"
       (VDict [("save_path", VInt 7); ("qBt-savePath", VStr "/srv/music")]))
  = ([Log INFO [Lit "Replacing Paths in FastResume ";
                Fmt (VStr "/num/num.fastresume"); Lit "..."]],
     inl (AttributeError "replace"),
     mkFastResume "/num/num.fastresume"
       (VDict [("save_path", VInt 7); ("qBt-savePath", VStr "/srv/music")])).
Proof.
  exact (replace_paths_needs_a_text_save_path convert_slashes_model demo_os
           "/mnt/old" "/mnt/new" None true true "20240101120000"
           "/num/num.fastresume"
           [("save_path", VInt 7); ("qBt-savePath", VStr "/srv/music")]).
Defined.

Lemma backup_names_follow_the_stamp_witness :
  FastResume.backup_filename "20240101120000" movies
    = ([], inr "/bt/movies.fastresume.20240101120000.bkup", movies) /\
  FastResume.backup_filename "20240101120000" movies
    <> FastResume.backup_filename "20240101120001" movies.
Proof.
  split; [reflexivity|]. intros H.
  apply (proj1 (backup_names_follow_the_stamp movies "20240101120000"
                  "20240101120001")) in H.
  discriminate.
Defined.
